(** * The messaging service of api-trackit, embedded in Rocq

    The development follows [src/services/message.service.ts] (the domain
    service), [src/controllers/message.controller.js] (the HTTP handlers)
    and the Message schema of [models/message].  The document store and the
    object-document mapper (ODM) are external: the store is modelled as the
    two collections the service touches, and the mapper's identifier
    primitives are an interface ([Odm]) that every statement is generic in. *)

From Stdlib Require Import ZArith String Ascii Permutation Sorted.
From stdpp Require Import base option list strings sorting.
From stdpp Require Import gmap pretty.

Open Scope string_scope.

(** ** JavaScript values and strings *)

(** A value as it reaches the service at run time.  The TypeScript
    signatures say [string], but [content] and [senderId] are read from a
    JSON body, and the service itself tests [typeof content].  Of a number
    the code only asks whether it is falsy and what its type is, so an
    integer stands for it; [JObject] is any object or array. *)
Inductive JsValue : Type :=
| JUndefined
| JNull
| JBool (b : bool)
| JNumber (n : Z)
| JString (s : string)
| JObject.

(** [!v] is [negb (truthy v)]. *)
Definition truthy (v : JsValue) : bool :=
  match v with
  | JUndefined | JNull => false
  | JBool b => b
  | JNumber n => negb (n =? 0)%Z
  | JString s => negb (String.eqb s "")
  | JObject => true
  end.

Definition typeof (v : JsValue) : string :=
  match v with
  | JUndefined => "undefined"
  | JNull | JObject => "object"
  | JBool _ => "boolean"
  | JNumber _ => "number"
  | JString _ => "string"
  end.

(** Strings are carried as their UTF-8 bytes. *)
Definition utf8 (bytes : list nat) : string :=
  string_of_list_ascii (map ascii_of_nat bytes).

(** The code points [String.prototype.trim] strips: ECMAScript WhiteSpace
    (TAB, VT, FF, SP, NBSP, ZWNBSP and the other space separators) and
    LineTerminator (LF, CR, LS, PS). *)
Definition whiteSpace : list string :=
  [ utf8 [9]; utf8 [10]; utf8 [11]; utf8 [12]; utf8 [13]; utf8 [32];
    utf8 [194; 160];
    utf8 [225; 154; 128];
    utf8 [226; 128; 128]; utf8 [226; 128; 129]; utf8 [226; 128; 130];
    utf8 [226; 128; 131]; utf8 [226; 128; 132]; utf8 [226; 128; 133];
    utf8 [226; 128; 134]; utf8 [226; 128; 135]; utf8 [226; 128; 136];
    utf8 [226; 128; 137]; utf8 [226; 128; 138];
    utf8 [226; 128; 168]; utf8 [226; 128; 169]; utf8 [226; 128; 175];
    utf8 [226; 129; 159];
    utf8 [227; 128; 128];
    utf8 [239; 187; 191] ].

Fixpoint stripPrefix (p s : string) : option string :=
  match p with
  | EmptyString => Some s
  | String a p' =>
      match s with
      | String b s' => if Ascii.eqb a b then stripPrefix p' s' else None
      | EmptyString => None
      end
  end.

Fixpoint stripAny (table : list string) (s : string) : option string :=
  match table with
  | [] => None
  | w :: table' =>
      match stripPrefix w s with
      | Some r => Some r
      | None => stripAny table' s
      end
  end.

(** Every strip removes at least one byte, so the length is fuel enough. *)
Fixpoint stripLeading (table : list string) (fuel : nat) (s : string) : string :=
  match fuel with
  | O => s
  | S fuel' =>
      match stripAny table s with
      | Some r => stripLeading table fuel' r
      | None => s
      end
  end.

Definition trimStart (s : string) : string :=
  stripLeading whiteSpace (String.length s) s.

Definition trimEnd (s : string) : string :=
  String.rev
    (stripLeading (map String.rev whiteSpace) (String.length s) (String.rev s)).

(** [s.trim()] *)
Definition trim (s : string) : string := trimEnd (trimStart s).

(** [hay.includes(needle)] *)
Fixpoint includes (hay needle : string) : bool :=
  String.prefix needle hay
  || match hay with
     | EmptyString => false
     | String _ hay' => includes hay' needle
     end.

(** ** Errors and outcomes *)

(** Everything thrown is a JavaScript [Error] carrying a message; the
    handlers look at nothing else.  The constructor records who built it. *)
Inductive Thrown : Type :=
| NewError (text : string)   (* [new Error(text)], built by the service *)
| OdmError (text : string).  (* raised inside the ODM: a failed cast or validator *)

Definition message (e : Thrown) : string :=
  match e with
  | NewError text | OdmError text => text
  end.

Definition builtByService (e : Thrown) : bool :=
  match e with
  | NewError _ => true
  | OdmError _ => false
  end.

(** How an awaited promise settles. *)
Inductive Outcome (A : Type) : Type :=
| Resolved (a : A)
| Rejected (e : Thrown).
Arguments Resolved {A} a.
Arguments Rejected {A} e.

(** The texts the service throws, as in the source. *)
Definition msgContentRequired : string := "El contenido del mensaje es requerido".
Definition msgSenderNotFound : string := "Remitente no encontrado o no disponible".
Definition msgReceiverNotFound : string := "Destinatario no encontrado o no disponible".
Definition msgInvalidMessageId : string := "ID de mensaje inválido".
Definition msgInvalidSenderId : string := "ID de remitente inválido".
Definition msgUpdateNotFound : string :=
  "Mensaje no encontrado o no tienes permiso para editarlo".
Definition msgDeleteNotFound : string :=
  "Mensaje no encontrado o no tienes permiso para eliminarlo".

(** ** The ODM's identifier primitives

    [mongoose.Types.ObjectId.isValid], the cast the mapper applies to a
    query value at an ObjectId path, and the texts of the errors it raises
    live in the mapper, not in this repository. *)
Class Odm : Type := {
  ObjectId : Type;
  ObjectId_eq_dec :: EqDecision ObjectId;
  isValid : JsValue -> bool;
  (** [None]: the value cannot be cast, the query rejects with a CastError.
      The mapper lets [undefined] and [null] through as [null]: such a
      value is cast to an identifier that no document carries. *)
  castObjectId : JsValue -> option ObjectId;
  (** text of the CastError for a value, at a path, of a model *)
  castErrorText : JsValue -> string -> string -> string;
  (** text of the failure of a [required] validator at a path *)
  requiredErrorText : string -> string
}.

(** ** Data model *)

(** A [Date], in milliseconds since the epoch. *)
Definition Date : Type := Z.

Module User.
Section Fields.
Context `{Odm}.

(** Modelled from the spec: [models/user] is not among the sources.  A
    user has an identifier and an availability flag, and the read path
    expands a reference to the user's [name] and [email]. *)
Record t : Type := {
  _id : ObjectId;
  name : string;
  email : string;
  available : bool
}.
End Fields.
End User.

Section Model.
Context `{Odm}.

(** [IMessage], with the paths of [messageSchema]. *)
Record Message : Type := {
  _id : ObjectId;
  content : string;
  sender : ObjectId;
  receiver : ObjectId;
  read : bool;
  createdAt : Date
}.

(** The paths [messageSchema] declares.  The schema is built with no
    options: it is strict, it has no [timestamps]. *)
Definition messageSchema : list string :=
  ["content"; "sender"; "receiver"; "read"; "createdAt"].

(** What [populate(path, 'name email')] puts in place of a reference. *)
Record UserRef : Type := {
  ref_id : ObjectId;
  ref_name : string;
  ref_email : string
}.

(** A message whose [sender] and [receiver] were populated; a reference
    to a user that is no longer stored populates to [null]. *)
Record PopulatedMessage : Type := {
  p_id : ObjectId;
  p_content : string;
  p_sender : option UserRef;
  p_receiver : option UserRef;
  p_read : bool;
  p_createdAt : Date
}.

(** The store: the two collections, each in its natural order. *)
Record Db : Type := {
  users : list User.t;
  messages : list Message
}.

(** ** Asynchronous code: a promise is run against the store *)

Definition Async (A : Type) : Type := Db -> Outcome A * Db.

Definition resolve {A} (a : A) : Async A := fun db => (Resolved a, db).

Definition throw {A} (e : Thrown) : Async A := fun db => (Rejected e, db).

Definition awaiting {A B} (p : Async A) (k : A -> Async B) : Async B :=
  fun db =>
    match p db with
    | (Resolved a, db') => k a db'
    | (Rejected e, db') => (Rejected e, db')
    end.

(** [if (c) throw e;] *)
Definition throwIf (c : bool) (e : Thrown) : Async unit :=
  if c then throw e else resolve tt.

(** [Promise.all([p, q])].  Both promises here are reads; when both
    reject, the first one's error is taken. *)
Definition Promise_all {A B} (p : Async A) (q : Async B) : Async (A * B) :=
  awaiting p (fun a => awaiting q (fun b => resolve (a, b))).

(** ** The mapper's operations on the two collections *)

(** [{ _id: v, available: b }] *)
Record UserFilter : Type := {
  uf_id : JsValue;
  uf_available : bool
}.

Definition userMatches (oid : ObjectId) (b : bool) (u : User.t) : bool :=
  bool_decide (User._id u = oid) && Bool.eqb (User.available u) b.

(** [UserModel.findOne(filter)] *)
Definition UserModel_findOne (f : UserFilter) : Async (option User.t) :=
  fun db =>
    match castObjectId (uf_id f) with
    | None => (Rejected (OdmError (castErrorText (uf_id f) "_id" "User")), db)
    | Some oid => (Resolved (find (userMatches oid (uf_available f)) (users db)), db)
    end.

(** A conjunction of equalities on the identifier paths of a message:
    [{ _id: .., sender: .., receiver: .. }], each path optional. *)
Record MessageFilter : Type := {
  by_id : option JsValue;
  by_sender : option JsValue;
  by_receiver : option JsValue
}.

(** The same filter once its values are cast to the paths' type. *)
Record MessageCond : Type := {
  is_id : option ObjectId;
  is_sender : option ObjectId;
  is_receiver : option ObjectId
}.

Definition castPath (path : string) (v : option JsValue)
  : Outcome (option ObjectId) :=
  match v with
  | None => Resolved None
  | Some v =>
      match castObjectId v with
      | Some oid => Resolved (Some oid)
      | None => Rejected (OdmError (castErrorText v path "Message"))
      end
  end.

(** The mapper walks the paths of a filter from the last to the first:
    the cast that fails is that of the last path that cannot be cast. *)
Definition castFilter (f : MessageFilter) : Outcome MessageCond :=
  match castPath "receiver" (by_receiver f) with
  | Rejected e => Rejected e
  | Resolved r =>
      match castPath "sender" (by_sender f) with
      | Rejected e => Rejected e
      | Resolved s =>
          match castPath "_id" (by_id f) with
          | Rejected e => Rejected e
          | Resolved i =>
              Resolved {| is_id := i; is_sender := s; is_receiver := r |}
          end
      end
  end.

(** [{ $or: [f1, f2, ...] }]: the branches too are cast from the last to
    the first. *)
Fixpoint castOr (fs : list MessageFilter) : Outcome (list MessageCond) :=
  match fs with
  | [] => Resolved []
  | f :: fs' =>
      match castOr fs' with
      | Rejected e => Rejected e
      | Resolved cs =>
          match castFilter f with
          | Rejected e => Rejected e
          | Resolved c => Resolved (c :: cs)
          end
      end
  end.

Definition holds (want : option ObjectId) (have : ObjectId) : bool :=
  match want with
  | None => true
  | Some w => bool_decide (have = w)
  end.

Definition matchesCond (c : MessageCond) (m : Message) : bool :=
  holds (is_id c) (_id m) && holds (is_sender c) (sender m)
  && holds (is_receiver c) (receiver m).

Definition matchesAny (cs : list MessageCond) (m : Message) : bool :=
  existsb (fun c => matchesCond c m) cs.

(** [sort({ createdAt: -1 })]: most recent first. *)
Definition newerFirst (a b : Message) : Prop := (createdAt b <= createdAt a)%Z.

#[export] Instance newerFirst_dec : RelDecision newerFirst.
Proof. intros a b. unfold newerFirst. apply Z_le_dec. Defined.

Definition sortByCreatedAtDesc (l : list Message) : list Message :=
  merge_sort newerFirst l.

(** [MessageModel.find({ $or: fs }).sort({ createdAt: -1 })] *)
Definition MessageModel_find_sorted (fs : list MessageFilter)
  : Async (list Message) :=
  fun db =>
    match castOr fs with
    | Rejected e => (Rejected e, db)
    | Resolved cs =>
        (Resolved (sortByCreatedAtDesc (List.filter (matchesAny cs) (messages db))), db)
    end.

Definition populatePath (us : list User.t) (oid : ObjectId) : option UserRef :=
  match find (fun u => bool_decide (User._id u = oid)) us with
  | Some u =>
      Some {| ref_id := User._id u; ref_name := User.name u;
              ref_email := User.email u |}
  | None => None
  end.

(** [.populate('sender', 'name email').populate('receiver', 'name email')]
    on one document *)
Definition populate (us : list User.t) (m : Message) : PopulatedMessage :=
  {| p_id := _id m;
     p_content := content m;
     p_sender := populatePath us (sender m);
     p_receiver := populatePath us (receiver m);
     p_read := read m;
     p_createdAt := createdAt m |}.

Definition populateAll (ms : list Message) : Async (list PopulatedMessage) :=
  fun db => (Resolved (map (populate (users db)) ms), db).

(** A query that found nothing populates to [null]. *)
Definition populateFound (found : option Message)
  : Async (option PopulatedMessage) :=
  fun db => (Resolved (option_map (populate (users db)) found), db).

(** The values the service writes with [$set]. *)
Inductive FieldValue : Type :=
| VString (s : string)
| VDate (d : Date).

Definition SetDoc : Type := list (string * FieldValue).

(** The mapper casts an update against the schema before it is sent to
    the store.  [messageSchema] is strict (the default), so a [$set] path
    the schema does not declare is dropped, silently. *)
Definition castUpdate (set : SetDoc) : SetDoc :=
  List.filter (fun pv => bool_decide (fst pv ∈ messageSchema)) set.

(** [$set] of one path that survived the cast, for the two kinds of value
    the service writes. *)
Definition setPath (m : Message) (pv : string * FieldValue) : Message :=
  match pv with
  | (path, VString s) =>
      if String.eqb path "content"
      then {| _id := _id m; content := s; sender := sender m;
              receiver := receiver m; read := read m;
              createdAt := createdAt m |}
      else m
  | (path, VDate d) =>
      if String.eqb path "createdAt"
      then {| _id := _id m; content := content m; sender := sender m;
              receiver := receiver m; read := read m; createdAt := d |}
      else m
  end.

Definition applySet (set : SetDoc) (m : Message) : Message :=
  fold_left setPath set m.

(** [content] is [required]: the validator refuses the empty string. *)
Definition emptiesContent (pv : string * FieldValue) : bool :=
  match pv with
  | (path, VString s) => String.eqb path "content" && String.eqb s ""
  | (_, VDate _) => false
  end.

(** The first document that matches is replaced; the new state of the
    document is the result ([new: true]). *)
Fixpoint updateFirst (p : Message -> bool) (f : Message -> Message)
    (l : list Message) : option Message * list Message :=
  match l with
  | [] => (None, [])
  | m :: l' =>
      if p m then (Some (f m), f m :: l')
      else let r := updateFirst p f l' in (fst r, m :: snd r)
  end.

(** The first document that matches is removed and is the result. *)
Fixpoint removeFirst (p : Message -> bool) (l : list Message)
  : option Message * list Message :=
  match l with
  | [] => (None, [])
  | m :: l' =>
      if p m then (Some m, l')
      else let r := removeFirst p l' in (fst r, m :: snd r)
  end.

(** [MessageModel.findOneAndUpdate(filter, { $set: set },
    { new: true, runValidators: true })]: one step of the store. *)
Definition MessageModel_findOneAndUpdate (f : MessageFilter) (set : SetDoc)
  : Async (option Message) :=
  fun db =>
    match castFilter f with
    | Rejected e => (Rejected e, db)
    | Resolved c =>
        let set' := castUpdate set in
        if existsb emptiesContent set'
        then (Rejected (OdmError (requiredErrorText "content")), db)
        else
          let r := updateFirst (matchesCond c) (applySet set') (messages db) in
          (Resolved (fst r), {| users := users db; messages := snd r |})
    end.

(** [MessageModel.findOneAndDelete(filter)]: one step of the store. *)
Definition MessageModel_findOneAndDelete (f : MessageFilter)
  : Async (option Message) :=
  fun db =>
    match castFilter f with
    | Rejected e => (Rejected e, db)
    | Resolved c =>
        let r := removeFirst (matchesCond c) (messages db) in
        (Resolved (fst r), {| users := users db; messages := snd r |})
    end.

(** [doc.save()] of a new document: validated, then appended.  The
    document's [_id] is the mapper's, generated fresh. *)
Definition save (doc : Message) : Async Message :=
  fun db =>
    if String.eqb (content doc) ""
    then (Rejected (OdmError (requiredErrorText "content")), db)
    else (Resolved doc, {| users := users db; messages := messages db ++ [doc] |}).
End Model.

Notation "'await' x <- p ;; k" := (awaiting p (fun x => k))
  (at level 10, x name, p at level 99, k at level 200).

(** ** The domain service ([MessageService]) *)

Module MessageService.
Section Service.
Context `{Odm}.

(** [content.trim()]; the source evaluates it only behind the
    [typeof content] test, that is on strings. *)
Definition trimmed (content : JsValue) : string :=
  match content with
  | JString s => trim s
  | _ => ""
  end.

(** [!content || typeof content !== 'string' || content.trim().length === 0] *)
Definition contentMissing (content : JsValue) : bool :=
  negb (truthy content)
  || negb (String.eqb (typeof content) "string")
  || Nat.eqb (String.length (trimmed content)) 0.

(** [now] is what [new Date()] reads and [newId] the identifier the
    mapper gives the document built by [new MessageModel(..)]. *)
Definition sendMessage (now : Date) (newId : ObjectId)
    (senderId receiverId content : JsValue) : Async Message :=
  await _ <- throwIf (contentMissing content) (NewError msgContentRequired) ;;
  await found <- Promise_all
             (UserModel_findOne {| uf_id := senderId; uf_available := true |})
             (UserModel_findOne {| uf_id := receiverId; uf_available := true |}) ;;
  match fst found with
  | None => throw (NewError msgSenderNotFound)
  | Some sender =>
      match snd found with
      | None => throw (NewError msgReceiverNotFound)
      | Some receiver =>
          save {| _id := newId;
                  content := trimmed content;
                  sender := User._id sender;
                  receiver := User._id receiver;
                  read := false;
                  createdAt := now |}
      end
  end.

Definition getMessagesBetweenUsers (userId1 userId2 : JsValue)
  : Async (list PopulatedMessage) :=
  await found <- MessageModel_find_sorted
             [ {| by_id := None; by_sender := Some userId1;
                  by_receiver := Some userId2 |};
               {| by_id := None; by_sender := Some userId2;
                  by_receiver := Some userId1 |} ] ;;
  populateAll found.

Definition updateMessage (now : Date) (messageId newContent senderId : JsValue)
  : Async PopulatedMessage :=
  await _ <- throwIf (negb (isValid messageId)) (NewError msgInvalidMessageId) ;;
  await _ <- throwIf (contentMissing newContent) (NewError msgContentRequired) ;;
  await _ <- throwIf (negb (isValid senderId)) (NewError msgInvalidSenderId) ;;
  await found <- MessageModel_findOneAndUpdate
             {| by_id := Some messageId; by_sender := Some senderId;
                by_receiver := None |}
             [ ("content", VString (trimmed newContent));
               ("updatedAt", VDate now) ] ;;
  await updatedMessage <- populateFound found ;;
  match updatedMessage with
  | None => throw (NewError msgUpdateNotFound)
  | Some m => resolve m
  end.

Definition deleteMessage (messageId senderId : JsValue)
  : Async PopulatedMessage :=
  await _ <- throwIf (negb (isValid messageId)) (NewError msgInvalidMessageId) ;;
  await _ <- throwIf (negb (isValid senderId)) (NewError msgInvalidSenderId) ;;
  await found <- MessageModel_findOneAndDelete
             {| by_id := Some messageId; by_sender := Some senderId;
                by_receiver := None |} ;;
  await deletedMessage <- populateFound found ;;
  match deletedMessage with
  | None => throw (NewError msgDeleteNotFound)
  | Some m => resolve m
  end.
End Service.
End MessageService.

(** ** The HTTP handlers ([message.controller]) *)

Module MessageController.
Section Handlers.
Context `{Odm}.

Inductive Body : Type :=
| JsonMessage (m : Message)
| JsonPopulated (m : PopulatedMessage)
| JsonList (ms : list PopulatedMessage)
| JsonError (error : string)
| JsonNotice (text : string).

(** [res.status(status).json(json)] *)
Record Response : Type := {
  status : Z;
  json : Body
}.

(** A handler takes the values it destructures from [req.params] and
    [req.body] ([JUndefined] for a name that is not there).  Whatever is
    thrown below is an [Error], so each [catch] is its [instanceof Error]
    branch. *)
Definition sendMessage (now : Date) (newId : ObjectId)
    (senderId receiverId content : JsValue) (db : Db) : Response * Db :=
  match MessageService.sendMessage now newId senderId receiverId content db with
  | (Resolved m, db') => ({| status := 201; json := JsonMessage m |}, db')
  | (Rejected e, db') =>
      if includes (message e) "no encontrado"
      then ({| status := 404; json := JsonError (message e) |}, db')
      else ({| status := 400; json := JsonError (message e) |}, db')
  end.

Definition getMessagesBetweenUsers (userId1 userId2 : JsValue) (db : Db)
  : Response * Db :=
  match MessageService.getMessagesBetweenUsers userId1 userId2 db with
  | (Resolved ms, db') =>
      if Nat.eqb (length ms) 0
      then ({| status := 404;
               json := JsonNotice "No se encontraron mensajes entre estos usuarios" |},
            db')
      else ({| status := 200; json := JsonList ms |}, db')
  | (Rejected e, db') =>
      if includes (message e) "inválido"
      then ({| status := 400; json := JsonError (message e) |}, db')
      else ({| status := 500; json := JsonError (message e) |}, db')
  end.

(** The [catch] block of [updateMessage], which [deleteMessage] repeats. *)
Definition mutationFailure (e : Thrown) : Response :=
  if includes (message e) "inválido"
  then {| status := 400; json := JsonError (message e) |}
  else if includes (message e) "no tienes permiso"
  then {| status := 403; json := JsonError (message e) |}
  else if includes (message e) "no encontrado"
  then {| status := 404; json := JsonError (message e) |}
  else {| status := 500; json := JsonError (message e) |}.

Definition updateMessage (now : Date) (messageId content senderId : JsValue)
    (db : Db) : Response * Db :=
  if negb (truthy content) || negb (truthy senderId)
  then ({| status := 400; json := JsonError "content y senderId son requeridos" |}, db)
  else
    match MessageService.updateMessage now messageId content senderId db with
    | (Resolved m, db') => ({| status := 200; json := JsonPopulated m |}, db')
    | (Rejected e, db') => (mutationFailure e, db')
    end.

Definition deleteMessage (messageId senderId : JsValue) (db : Db)
  : Response * Db :=
  if negb (truthy senderId)
  then ({| status := 400; json := JsonError "senderId es requerido" |}, db)
  else
    match MessageService.deleteMessage messageId senderId db with
    | (Resolved m, db') => ({| status := 200; json := JsonPopulated m |}, db')
    | (Rejected e, db') => (mutationFailure e, db')
    end.
End Handlers.
End MessageController.

(** ** A concrete mapper: identifiers are 24 hexadecimal digits *)

Module HexOdm.
Definition isHexDigit (c : ascii) : bool :=
  let n := nat_of_ascii c in
  (Nat.leb 48 n && Nat.leb n 57) || (Nat.leb 97 n && Nat.leb n 102)
  || (Nat.leb 65 n && Nat.leb n 70).

Definition lower (c : ascii) : ascii :=
  let n := nat_of_ascii c in
  if Nat.leb 65 n && Nat.leb n 90 then ascii_of_nat (n + 32) else c.

Definition isHex24 (s : string) : bool :=
  Nat.eqb (String.length s) 24 && forallb isHexDigit (list_ascii_of_string s).

Definition lowercase (s : string) : string :=
  string_of_list_ascii (map lower (list_ascii_of_string s)).

(** [ObjectId.isValid]: a string of 24 hexadecimal digits, or any number
    (the constructor takes a number as a time stamp). *)
Definition valid (v : JsValue) : bool :=
  match v with
  | JString s => isHex24 s
  | JNumber _ => true
  | JUndefined | JNull | JBool _ | JObject => false
  end.

(** [null] as the value of an identifier path.  It is carried as the empty
    string, which is no document's identifier: a filter on it misses. *)
Definition null : string := EmptyString.

(** The cast of a query value.  Two spellings of the same digits are the
    same identifier; [undefined] and [null] pass as [null]; anything else
    is cast through its [toString()], which for a number, a boolean or an
    object is never 24 hexadecimal digits. *)
Definition cast (v : JsValue) : option string :=
  match v with
  | JString s => if isHex24 s then Some (lowercase s) else None
  | JUndefined | JNull => Some null
  | JNumber _ | JBool _ | JObject => None
  end.

Definition quote : string := String (ascii_of_nat 34) EmptyString.

(** The value and its type, as the CastError prints them.  What is inside
    an object is not carried by [JObject]: it prints as the empty one. *)
Definition inspect (v : JsValue) : string :=
  match v with
  | JString s => quote ++ s ++ quote ++ " (type string)"
  | JNumber n => quote ++ pretty n ++ quote ++ " (type number)"
  | JBool b =>
      quote ++ (if b then "true" else "false") ++ quote ++ " (type boolean)"
  | JObject => quote ++ "{}" ++ quote ++ " (type Object)"
  | JUndefined => quote ++ "undefined" ++ quote ++ " (type undefined)"
  | JNull => quote ++ "null" ++ quote ++ " (type null)"
  end.

Definition castText (v : JsValue) (path model : string) : string :=
  "Cast to ObjectId failed for value " ++ inspect v ++ " at path " ++ quote
  ++ path ++ quote ++ " for model " ++ quote ++ model ++ quote.

Definition requiredText (path : string) : string :=
  "Validation failed: " ++ path ++ ": Path `" ++ path ++ "` is required.".

Definition odm : Odm :=
  {| ObjectId := string;
     isValid := valid;
     castObjectId := cast;
     castErrorText := castText;
     requiredErrorText := requiredText |}.
End HexOdm.

(** ** The vocabulary of the specification *)

(** Content that is missing, not text, or empty after trimming. *)
Definition blank (content : JsValue) : bool :=
  match content with
  | JString s => String.eqb (trim s) ""
  | _ => true
  end.

(** The error, if any, was built by the service itself. *)
Definition serviceBuilt {A} (o : Outcome A) : bool :=
  match o with
  | Resolved _ => false
  | Rejected e => builtByService e
  end.

Section Vocabulary.
Context `{Odm}.

(** A user with this identifier is stored with [available = true]. *)
Definition availableUser (db : Db) (oid : ObjectId) : Prop :=
  exists u, u ∈ users db /\ User._id u = oid /\ User.available u = true.

(** The message belongs to the pair, in either direction. *)
Definition between (a b : ObjectId) (m : Message) : Prop :=
  (sender m = a /\ receiver m = b) \/ (sender m = b /\ receiver m = a).

#[export] Instance between_dec a b m : Decision (between a b m).
Proof. unfold between. solve_decision. Defined.

(** The message has this identifier and was sent by this user. *)
Definition ownedBy (mid sid : ObjectId) (m : Message) : Prop :=
  _id m = mid /\ sender m = sid.

(** The cast form of [{ _id: messageId, sender: senderId }]. *)
Definition ownerCond (mid sid : ObjectId) : MessageCond :=
  {| is_id := Some mid; is_sender := Some sid; is_receiver := None |}.

(** The cast form of [{ sender: a, receiver: b }]. *)
Definition pairCond (a b : ObjectId) : MessageCond :=
  {| is_id := None; is_sender := Some a; is_receiver := Some b |}.

(** The [$set] document of [updateMessage]. *)
Definition updateSet (now : Date) (text : string) : SetDoc :=
  [ ("content", VString (trim text)); ("updatedAt", VDate now) ].

(** The document store keeps [_id] unique within a collection. *)
Definition uniqueIds (db : Db) : Prop := NoDup (map _id (messages db)).

(** The document [sendMessage] builds from trimmed text and two users. *)
Definition newMessage (now : Date) (newId : ObjectId) (text : string)
    (s r : ObjectId) : Message :=
  {| _id := newId; content := trim text; sender := s; receiver := r;
     read := false; createdAt := now |}.

(** The message with new content and every other path as it was. *)
Definition withContent (text : string) (m : Message) : Message :=
  {| _id := _id m; content := text; sender := sender m;
     receiver := receiver m; read := read m; createdAt := createdAt m |}.
End Vocabulary.

(** ** A small store over the concrete mapper *)

Module Fixture.
#[local] Existing Instance HexOdm.odm.

Definition idAna : ObjectId := "64b0000000000000000000a1".
Definition idBen : ObjectId := "64b0000000000000000000b2".
Definition idEva : ObjectId := "64b0000000000000000000e5".
Definition idMsg1 : ObjectId := "64b0000000000000000000c3".
Definition idMsg2 : ObjectId := "64b0000000000000000000c4".
Definition idMsg3 : ObjectId := "64b0000000000000000000c5".

Definition ana : User.t :=
  {| User._id := idAna; User.name := "Ana"; User.email := "ana@example.org";
     User.available := true |}.
Definition ben : User.t :=
  {| User._id := idBen; User.name := "Ben"; User.email := "ben@example.org";
     User.available := true |}.
Definition eva : User.t :=
  {| User._id := idEva; User.name := "Eva"; User.email := "eva@example.org";
     User.available := false |}.

Definition msg1 : Message :=
  {| _id := idMsg1; content := "hi"; sender := idAna; receiver := idBen;
     read := false; createdAt := 1000%Z |}.
Definition msg2 : Message :=
  {| _id := idMsg2; content := "hello"; sender := idBen; receiver := idAna;
     read := false; createdAt := 3000%Z |}.

Definition noMessages : Db := {| users := [ana; ben; eva]; messages := [] |}.
Definition twoMessages : Db :=
  {| users := [ana; ben; eva]; messages := [msg1; msg2] |}.
End Fixture.

(** ** The router ([message.routes]) *)

Module MessageRoutes.
Section Router.
Context `{Odm}.

Inductive Method : Type := GET | POST | PUT | PATCH | DELETE.

#[export] Instance Method_eq_dec : EqDecision Method.
Proof. solve_decision. Defined.

(** A request as the router sees it: the method, the segments of the path
    below the mount point, decoded, and the parsed JSON body. *)
Record Request : Type := {
  method : Method;
  segments : list string;
  body : gmap string JsValue
}.

(** A route path made of named parameters only, ["/:a/:b"], binds each
    name to the segment at its place; a parameter matches one segment
    that is not empty. *)
Definition bindParams (names segs : list string) : option (gmap string string) :=
  if bool_decide (length names = length segs)
     && forallb (fun seg => negb (String.eqb seg "")) segs
  then Some (list_to_map (zip names segs))
  else None.

(** [req.params.name] *)
Definition param (params : gmap string string) (name : string) : JsValue :=
  match params !! name with
  | Some seg => JString seg
  | None => JUndefined
  end.

(** [req.body.name] *)
Definition field (fields : gmap string JsValue) (name : string) : JsValue :=
  match fields !! name with
  | Some v => v
  | None => JUndefined
  end.

Inductive Handler : Type :=
| sendMessage
| getMessagesBetweenUsers
| updateMessage
| deleteMessage.

(** The four routes, in the order they are registered. *)
Definition routes : list (Method * list string * Handler) :=
  [ (POST, ["senderId"; "recieverId"], sendMessage);
    (GET, ["senderId"; "recieverId"], getMessagesBetweenUsers);
    (PUT, ["messageId"], updateMessage);
    (DELETE, ["messageId"], deleteMessage) ].

(** The first route of the method whose path matches takes the request. *)
Fixpoint matchRoute (table : list (Method * list string * Handler))
    (req : Request) : option (Handler * gmap string string) :=
  match table with
  | [] => None
  | (m, names, h) :: table' =>
      if bool_decide (m = method req)
      then match bindParams names (segments req) with
           | Some params => Some (h, params)
           | None => matchRoute table' req
           end
      else matchRoute table' req
  end.

(** What each handler destructures from [req.params] and [req.body]
    before it calls the service. *)
Definition call (now : Date) (newId : ObjectId) (h : Handler)
    (params : gmap string string) (fields : gmap string JsValue) (db : Db)
  : MessageController.Response * Db :=
  match h with
  | sendMessage =>
      MessageController.sendMessage now newId
        (param params "senderId") (param params "receiverId")
        (field fields "content") db
  | getMessagesBetweenUsers =>
      MessageController.getMessagesBetweenUsers
        (param params "userId1") (param params "userId2") db
  | updateMessage =>
      MessageController.updateMessage now
        (param params "messageId") (field fields "content")
        (field fields "senderId") db
  | deleteMessage =>
      MessageController.deleteMessage
        (param params "messageId") (field fields "senderId") db
  end.

(** A request through the router; [None] when no route takes it. *)
Definition handle (now : Date) (newId : ObjectId) (req : Request) (db : Db)
  : option (MessageController.Response * Db) :=
  match matchRoute routes req with
  | Some (h, params) => Some (call now newId h params (body req) db)
  | None => None
  end.
End Router.
End MessageRoutes.

(** ** Properties of operations on the store *)

Definition isResolved {A} (o : Outcome A) : bool :=
  match o with
  | Resolved _ => true
  | Rejected _ => false
  end.

Section StoreVocabulary.
Context `{Odm}.

(** An operation that rejects has left the store as it found it. *)
Definition failsClean {A} (p : Async A) : Prop :=
  forall db e, fst (p db) = Rejected e -> snd (p db) = db.

(** An operation that never writes to the users collection. *)
Definition keepsUsers {A} (p : Async A) : Prop :=
  forall db, users (snd (p db)) = users db.

(** A handler that writes nothing unless it answers with [ok]. *)
Definition writesOnlyOn (ok : Z)
    (h : Db -> MessageController.Response * Db) : Prop :=
  forall db, MessageController.status (fst (h db)) <> ok -> snd (h db) = db.

(** The paths of a message other than its content. *)
Definition frame (m : Message)
  : ObjectId * ObjectId * ObjectId * bool * Date :=
  (_id m, sender m, receiver m, read m, createdAt m).

(** No stored message has empty content. *)
Definition contentful (db : Db) : Prop :=
  forall m, m ∈ messages db -> content m <> "".
End StoreVocabulary.

(** Case analysis on the test of the first conditional in the goal. *)
Ltac case_if :=
  match goal with
  | |- context [if ?b then _ else _] => destruct b eqn:?
  end.

(** * Facts about the embedding *)

Local Open Scope list_scope.

(** ** Strings and content *)

Lemma length_zero_eqb (s : string) :
  Nat.eqb (String.length s) 0 = String.eqb s "".
Proof. destruct s; reflexivity. Qed.

Lemma trim_empty : trim "" = "".
Proof. reflexivity. Qed.

(** The test of the source is the specification's notion of blank content. *)
Lemma contentMissing_blank (content : JsValue) :
  MessageService.contentMissing content = blank content.
Proof.
  unfold MessageService.contentMissing.
  destruct content as [| |b|n|s|]; simpl; try reflexivity.
  - destruct b; reflexivity.
  - destruct (n =? 0)%Z; reflexivity.
  - destruct (String.eqb_spec s "") as [->|_]; simpl.
    + reflexivity.
    + apply length_zero_eqb.
Qed.

Lemma blank_inv (content : JsValue) :
  blank content = false ->
  exists s, content = JString s /\ String.eqb (trim s) "" = false.
Proof.
  destruct content; simpl; try discriminate. eauto.
Qed.

Section Facts.
Context `{Odm}.

Lemma db_eta (db : Db) : {| users := users db; messages := messages db |} = db.
Proof. destruct db; reflexivity. Qed.

(** ** User lookups *)

Lemma userMatches_true oid (u : User.t) :
  userMatches oid true u = true <-> User._id u = oid /\ User.available u = true.
Proof.
  unfold userMatches. rewrite andb_true_iff, bool_decide_eq_true.
  destruct (User.available u); simpl; intuition congruence.
Qed.

Lemma lookup_hit db oid :
  availableUser db oid ->
  exists u, find (userMatches oid true) (users db) = Some u /\ User._id u = oid.
Proof.
  intros (u & Hin & Hid & Hav).
  destruct (find (userMatches oid true) (users db)) as [v|] eqn:Hfind.
  - exists v. split; [reflexivity|].
    apply find_some in Hfind as [_ Hv]. apply userMatches_true in Hv. tauto.
  - exfalso. apply list_elem_of_In in Hin.
    pose proof (find_none _ _ Hfind u Hin) as Hno.
    assert (userMatches oid true u = true) as Hyes
      by (apply userMatches_true; auto).
    congruence.
Qed.

Lemma lookup_miss db oid :
  ~ availableUser db oid -> find (userMatches oid true) (users db) = None.
Proof.
  intros Hno.
  destruct (find (userMatches oid true) (users db)) as [v|] eqn:Hfind;
    [|reflexivity].
  exfalso. apply Hno. apply find_some in Hfind as [Hin Hv].
  apply userMatches_true in Hv. exists v.
  rewrite list_elem_of_In. tauto.
Qed.

Lemma lookup_Some_available db oid u :
  find (userMatches oid true) (users db) = Some u -> availableUser db oid.
Proof.
  intros Hfind. apply find_some in Hfind as [Hin Hv].
  apply userMatches_true in Hv. exists u. rewrite list_elem_of_In. tauto.
Qed.

Lemma lookup_None_unavailable db oid :
  find (userMatches oid true) (users db) = None -> ~ availableUser db oid.
Proof.
  intros Hfind Hav. apply lookup_hit in Hav as (u & Hu & _). congruence.
Qed.

(** ** [sendMessage], run on castable identifiers and text that is not blank *)

Lemma sendMessage_run now newId senderId receiverId text s r db :
  castObjectId senderId = Some s ->
  castObjectId receiverId = Some r ->
  blank (JString text) = false ->
  MessageService.sendMessage now newId senderId receiverId (JString text) db =
    match find (userMatches s true) (users db) with
    | None => (Rejected (NewError msgSenderNotFound), db)
    | Some su =>
        match find (userMatches r true) (users db) with
        | None => (Rejected (NewError msgReceiverNotFound), db)
        | Some ru =>
            let doc := newMessage now newId text (User._id su) (User._id ru) in
            (Resolved doc,
             {| users := users db; messages := messages db ++ [doc] |})
        end
    end.
Proof.
  intros Hs Hr Hblank.
  unfold MessageService.sendMessage, awaiting, throwIf, Promise_all,
    UserModel_findOne.
  rewrite contentMissing_blank, Hblank. simpl. rewrite Hs, Hr. simpl.
  destruct (find (userMatches s true) (users db)) as [su|]; simpl;
    [|reflexivity].
  destruct (find (userMatches r true) (users db)) as [ru|]; simpl;
    [|reflexivity].
  unfold save, newMessage. simpl in *. rewrite Hblank. reflexivity.
Qed.
End Facts.

(** * The claims about [sendMessage] *)

(** C3. Content that is missing, not a string, or empty after trimming makes
    [sendMessage] fail with the validation error, whatever the two
    identifiers are (no lookup has been made, and none can have failed),
    and the store is as it was. *)
Theorem C3_blank_content_is_rejected `{Odm} (now : Date) (newId : ObjectId)
    (senderId receiverId content : JsValue) (db : Db) :
  blank content = true ->
  MessageService.sendMessage now newId senderId receiverId content db
  = (Rejected (NewError msgContentRequired), db).
Proof.
  intros Hblank.
  unfold MessageService.sendMessage, awaiting, throwIf.
  rewrite contentMissing_blank, Hblank. reflexivity.
Qed.

Lemma C3_witness :
  blank (JString "   ") = true
  /\ MessageService.sendMessage (H := HexOdm.odm) 1000%Z Fixture.idMsg3
       (JString "not an identifier") JUndefined (JString "   ") Fixture.twoMessages
     = (Rejected (NewError msgContentRequired), Fixture.twoMessages).
Proof.
  split; [reflexivity|].
  apply (C3_blank_content_is_rejected (H := HexOdm.odm)). reflexivity.
Defined.




(** C5. With content that is not blank and both users stored with
    [available = true], [sendMessage] appends exactly one message to the
    collection: its content is the trimmed text, [read] is false,
    [createdAt] is the time of the call, its sender and receiver are the
    identifiers of the users found; that document is the result. *)
Theorem C5_send_persists_one_message `{Odm} (now : Date) (newId : ObjectId)
    (senderId receiverId : JsValue) (text : string) (s r : ObjectId) (db : Db) :
  blank (JString text) = false ->
  castObjectId senderId = Some s ->
  castObjectId receiverId = Some r ->
  availableUser db s ->
  availableUser db r ->
  let doc := {| _id := newId; content := trim text; sender := s; receiver := r;
                read := false; createdAt := now |} in
  MessageService.sendMessage now newId senderId receiverId (JString text) db
  = (Resolved doc, {| users := users db; messages := messages db ++ [doc] |}).
Proof.
  intros Hblank Hs Hr Hsa Hra doc.
  rewrite (sendMessage_run now newId _ _ text s r db Hs Hr Hblank).
  destruct (lookup_hit _ _ Hsa) as (su & -> & Hsu).
  destruct (lookup_hit _ _ Hra) as (ru & -> & Hru).
  simpl. unfold newMessage. rewrite Hsu, Hru. reflexivity.
Qed.

Lemma C5_witness :
  MessageService.sendMessage (H := HexOdm.odm) 5000%Z Fixture.idMsg3
    (JString Fixture.idAna) (JString Fixture.idBen) (JString "  see you  ")
    Fixture.twoMessages
  = (Resolved {| _id := Fixture.idMsg3; content := "see you";
                 sender := Fixture.idAna; receiver := Fixture.idBen;
                 read := false; createdAt := 5000%Z |},
     {| users := users Fixture.twoMessages;
        messages := messages Fixture.twoMessages
                    ++ [ {| _id := Fixture.idMsg3; content := "see you";
                            sender := Fixture.idAna; receiver := Fixture.idBen;
                            read := false; createdAt := 5000%Z |} ] |}).
Proof.
  apply (C5_send_persists_one_message (H := HexOdm.odm) 5000%Z Fixture.idMsg3
           (JString Fixture.idAna) (JString Fixture.idBen) "  see you  "
           Fixture.idAna Fixture.idBen Fixture.twoMessages).
  - reflexivity.
  - reflexivity.
  - reflexivity.
  - exists Fixture.ana. repeat split. apply list_elem_of_here.
  - exists Fixture.ben. repeat split. apply list_elem_of_further, list_elem_of_here.
Defined.

(** C10. A user available in the store can write to themselves: with the
    same identifier as sender and receiver and content that is not blank,
    [sendMessage] succeeds and appends a message whose sender and receiver
    are both that user. *)
Theorem C10_self_message_is_stored `{Odm} (now : Date) (newId : ObjectId)
    (userId : JsValue) (text : string) (u : ObjectId) (db : Db) :
  blank (JString text) = false ->
  castObjectId userId = Some u ->
  availableUser db u ->
  exists doc,
    MessageService.sendMessage now newId userId userId (JString text) db
    = (Resolved doc, {| users := users db; messages := messages db ++ [doc] |})
    /\ sender doc = u /\ receiver doc = u /\ content doc = trim text.
Proof.
  intros Hblank Hu Hav.
  rewrite (sendMessage_run now newId _ _ text u u db Hu Hu Hblank).
  destruct (lookup_hit _ _ Hav) as (v & -> & Hv).
  eexists. split; [reflexivity|]. simpl. auto.
Qed.

Lemma C10_witness :
  exists doc,
    MessageService.sendMessage (H := HexOdm.odm) 5000%Z Fixture.idMsg3
      (JString Fixture.idAna) (JString Fixture.idAna) (JString "note to self")
      Fixture.noMessages
    = (Resolved doc,
       {| users := users Fixture.noMessages;
          messages := messages Fixture.noMessages ++ [doc] |})
    /\ sender doc = Fixture.idAna /\ receiver doc = Fixture.idAna
    /\ content doc = trim "note to self".
Proof.
  apply (C10_self_message_is_stored (H := HexOdm.odm) 5000%Z Fixture.idMsg3
           (JString Fixture.idAna) "note to self" Fixture.idAna
           Fixture.noMessages).
  - reflexivity.
  - reflexivity.
  - exists Fixture.ana. repeat split. apply list_elem_of_here.
Defined.

(** * Facts about the Message collection *)

Section MessageFacts.
Context `{Odm}.

Lemma castFilter_owner messageId senderId mid sid :
  castObjectId messageId = Some mid ->
  castObjectId senderId = Some sid ->
  castFilter {| by_id := Some messageId; by_sender := Some senderId;
                by_receiver := None |}
  = Resolved (ownerCond mid sid).
Proof.
  intros Hm Hs. unfold castFilter, castPath; simpl. rewrite Hm, Hs. reflexivity.
Qed.

Lemma matchesCond_owner mid sid m :
  matchesCond (ownerCond mid sid) m = true <-> ownedBy mid sid m.
Proof.
  unfold matchesCond, ownerCond, ownedBy, holds; simpl.
  rewrite andb_true_r, andb_true_iff, !bool_decide_eq_true. reflexivity.
Qed.

Lemma not_owned_false mid sid (l : list Message) :
  (forall m, m ∈ l -> ~ ownedBy mid sid m) ->
  forall m, m ∈ l -> matchesCond (ownerCond mid sid) m = false.
Proof.
  intros Hno m Hin.
  destruct (matchesCond (ownerCond mid sid) m) eqn:E; [|reflexivity].
  apply matchesCond_owner in E. destruct (Hno m Hin E).
Qed.

(** Two stored messages with the same [_id] are the same message. *)
Lemma same_id_same_message (l : list Message) x y :
  NoDup (map _id l) -> x ∈ l -> y ∈ l -> _id x = _id y -> x = y.
Proof.
  induction l as [|a l IH]; intros Hnd Hx Hy Heq.
  - inversion Hx.
  - simpl in Hnd. apply NoDup_cons in Hnd as [Hnotin Hnd].
    apply list_elem_of_In in Hx, Hy. simpl in Hx, Hy.
    assert (forall z, In z l -> _id z = _id a -> False) as Hclash.
    { intros z Hz Hza. apply Hnotin, list_elem_of_In.
      rewrite <- Hza. apply in_map, Hz. }
    destruct Hx as [<-|Hx], Hy as [<-|Hy].
    + reflexivity.
    + exfalso. apply (Hclash y Hy). congruence.
    + exfalso. apply (Hclash x Hx). congruence.
    + apply IH; auto; apply list_elem_of_In; assumption.
Qed.

Lemma NoDup_messages (l : list Message) : NoDup (map _id l) -> NoDup l.
Proof.
  induction l as [|a l IH]; intros Hnd; [constructor|].
  simpl in Hnd. apply NoDup_cons in Hnd as [Hnotin Hnd].
  apply NoDup_cons. split; [|auto].
  intros Hin. apply Hnotin, list_elem_of_In, in_map, list_elem_of_In, Hin.
Qed.

(** ** The two find-and-mutate steps on a list *)

Lemma removeFirst_none (p : Message -> bool) l :
  (forall m, m ∈ l -> p m = false) -> removeFirst p l = (None, l).
Proof.
  induction l as [|a l IH]; intros Hno; simpl; [reflexivity|].
  rewrite (Hno a) by apply list_elem_of_here.
  rewrite IH by (intros m Hm; apply Hno, list_elem_of_further, Hm).
  reflexivity.
Qed.

Lemma updateFirst_none (p : Message -> bool) f l :
  (forall m, m ∈ l -> p m = false) -> updateFirst p f l = (None, l).
Proof.
  induction l as [|a l IH]; intros Hno; simpl; [reflexivity|].
  rewrite (Hno a) by apply list_elem_of_here.
  rewrite IH by (intros m Hm; apply Hno, list_elem_of_further, Hm).
  reflexivity.
Qed.

(** When [m] is the one stored message that matches, the list splits
    around it and nothing else in the list matches. *)
Lemma split_at_match (p : Message -> bool) (l : list Message) m :
  NoDup l -> m ∈ l -> p m = true ->
  (forall x, x ∈ l -> p x = true -> x = m) ->
  exists before after : list Message,
    l = before ++ m :: after
    /\ removeFirst p l = (Some m, before ++ after)
    /\ (forall f, updateFirst p f l = (Some (f m), before ++ f m :: after))
    /\ (forall x, x ∈ before ++ after -> p x = false).
Proof.
  induction l as [|a l IH]; intros Hnd Hin Hpm Huniq; [inversion Hin|].
  apply NoDup_cons in Hnd as [Hnotin Hnd].
  destruct (p a) eqn:Hpa.
  - assert (a = m) as -> by (apply Huniq; [apply list_elem_of_here|exact Hpa]).
    exists [], l. simpl. rewrite Hpm. repeat split; try reflexivity.
    intros x Hx. destruct (p x) eqn:Hpx; [|reflexivity].
    exfalso. apply Hnotin.
    rewrite <- (Huniq x (list_elem_of_further _ _ _ Hx) Hpx). exact Hx.
  - assert (m ∈ l) as Hin'.
    { apply elem_of_cons in Hin as [->|Hin]; [congruence|exact Hin]. }
    destruct (IH Hnd Hin' Hpm) as (before & after & Hl & Hrm & Hup & Hrest).
    { intros x Hx. apply Huniq, list_elem_of_further, Hx. }
    exists (a :: before), after. simpl. rewrite Hpa, Hrm, Hl.
    repeat split; try reflexivity.
    + intros f. rewrite <- Hl, Hup. reflexivity.
    + intros x Hx. apply elem_of_cons in Hx as [->|Hx]; auto.
Qed.

(** ** [deleteMessage] and [updateMessage], run on well-formed arguments *)

Lemma deleteMessage_run messageId senderId mid sid db :
  isValid messageId = true -> isValid senderId = true ->
  castObjectId messageId = Some mid -> castObjectId senderId = Some sid ->
  MessageService.deleteMessage messageId senderId db =
    let r := removeFirst (matchesCond (ownerCond mid sid)) (messages db) in
    let db' := {| users := users db; messages := snd r |} in
    match fst r with
    | None => (Rejected (NewError msgDeleteNotFound), db')
    | Some m => (Resolved (populate (users db) m), db')
    end.
Proof.
  intros Hvm Hvs Hm Hs.
  unfold MessageService.deleteMessage, awaiting, throwIf,
    MessageModel_findOneAndDelete, populateFound.
  rewrite Hvm, Hvs. simpl. rewrite (castFilter_owner _ _ _ _ Hm Hs). simpl.
  destruct (fst (removeFirst (matchesCond (ownerCond mid sid)) (messages db)));
    reflexivity.
Qed.

Lemma castUpdate_updateSet now text :
  castUpdate (updateSet now text) = [("content", VString (trim text))].
Proof. reflexivity. Qed.

Lemma applySet_content text m :
  applySet [("content", VString text)] m = withContent text m.
Proof. reflexivity. Qed.

Lemma updateMessage_run now messageId text senderId mid sid db :
  isValid messageId = true -> isValid senderId = true ->
  castObjectId messageId = Some mid -> castObjectId senderId = Some sid ->
  blank (JString text) = false ->
  MessageService.updateMessage now messageId (JString text) senderId db =
    let r := updateFirst (matchesCond (ownerCond mid sid))
               (withContent (trim text)) (messages db) in
    let db' := {| users := users db; messages := snd r |} in
    match fst r with
    | None => (Rejected (NewError msgUpdateNotFound), db')
    | Some m => (Resolved (populate (users db) m), db')
    end.
Proof.
  intros Hvm Hvs Hm Hs Hblank.
  unfold MessageService.updateMessage, awaiting, throwIf,
    MessageModel_findOneAndUpdate, populateFound.
  rewrite Hvm, contentMissing_blank, Hblank, Hvs. simpl.
  rewrite (castFilter_owner _ _ _ _ Hm Hs).
  simpl in Hblank. rewrite Hblank. simpl.
  change (applySet [("content", VString (trim text))])
    with (withContent (trim text)).
  destruct (fst (updateFirst (matchesCond (ownerCond mid sid))
                   (withContent (trim text)) (messages db))); reflexivity.
Qed.
End MessageFacts.

Section OneStep.
Context `{Odm}.

(** The service adds nothing to the store's own step: it validates, makes
    the one find-and-mutate call, and maps what the call found. *)
Lemma updateMessage_one_step now messageId newContent senderId db :
  isValid messageId = true -> isValid senderId = true ->
  blank newContent = false ->
  MessageService.updateMessage now messageId newContent senderId db
  = match MessageModel_findOneAndUpdate
            {| by_id := Some messageId; by_sender := Some senderId;
               by_receiver := None |}
            [ ("content", VString (MessageService.trimmed newContent));
              ("updatedAt", VDate now) ] db with
    | (Resolved (Some m), db') => (Resolved (populate (users db') m), db')
    | (Resolved None, db') => (Rejected (NewError msgUpdateNotFound), db')
    | (Rejected e, db') => (Rejected e, db')
    end.
Proof.
  intros Hvm Hvs Hblank.
  unfold MessageService.updateMessage, awaiting, throwIf, populateFound.
  rewrite Hvm, contentMissing_blank, Hblank, Hvs. simpl.
  destruct (MessageModel_findOneAndUpdate _ _ db) as [[[m|]|e] db'];
    reflexivity.
Qed.

Lemma deleteMessage_one_step messageId senderId db :
  isValid messageId = true -> isValid senderId = true ->
  MessageService.deleteMessage messageId senderId db
  = match MessageModel_findOneAndDelete
            {| by_id := Some messageId; by_sender := Some senderId;
               by_receiver := None |} db with
    | (Resolved (Some m), db') => (Resolved (populate (users db') m), db')
    | (Resolved None, db') => (Rejected (NewError msgDeleteNotFound), db')
    | (Rejected e, db') => (Rejected e, db')
    end.
Proof.
  intros Hvm Hvs.
  unfold MessageService.deleteMessage, awaiting, throwIf, populateFound.
  rewrite Hvm, Hvs. simpl.
  destruct (MessageModel_findOneAndDelete _ db) as [[[m|]|e] db'];
    reflexivity.
Qed.
End OneStep.

(** * The claims about [updateMessage] and [deleteMessage] *)

(** C1. With well-formed identifiers (and, for the update, content that is
    not blank), when no stored message has both this [_id] and this sender
    -- there is no such message, or it is another user's -- the update and
    the delete each fail with their one not-found-or-no-permission error
    and leave the store as it was.  In every store, each operation is the
    store's single find-and-mutate step on [{ _id, sender }], followed only
    by a mapping of what the step found: no check precedes the write. *)
Theorem C1_no_match_is_one_not_found `{Odm} (now : Date)
    (messageId newContent senderId : JsValue) (mid sid : ObjectId) (db : Db) :
  isValid messageId = true ->
  isValid senderId = true ->
  castObjectId messageId = Some mid ->
  castObjectId senderId = Some sid ->
  blank newContent = false ->
  (forall m, m ∈ messages db -> ~ ownedBy mid sid m) ->
  MessageService.updateMessage now messageId newContent senderId db
    = (Rejected (NewError msgUpdateNotFound), db)
  /\ MessageService.deleteMessage messageId senderId db
    = (Rejected (NewError msgDeleteNotFound), db)
  /\ (forall db0,
        MessageService.updateMessage now messageId newContent senderId db0
        = match MessageModel_findOneAndUpdate
                  {| by_id := Some messageId; by_sender := Some senderId;
                     by_receiver := None |}
                  [ ("content", VString (MessageService.trimmed newContent));
                    ("updatedAt", VDate now) ] db0 with
          | (Resolved (Some m), db') => (Resolved (populate (users db') m), db')
          | (Resolved None, db') => (Rejected (NewError msgUpdateNotFound), db')
          | (Rejected e, db') => (Rejected e, db')
          end)
  /\ (forall db0,
        MessageService.deleteMessage messageId senderId db0
        = match MessageModel_findOneAndDelete
                  {| by_id := Some messageId; by_sender := Some senderId;
                     by_receiver := None |} db0 with
          | (Resolved (Some m), db') => (Resolved (populate (users db') m), db')
          | (Resolved None, db') => (Rejected (NewError msgDeleteNotFound), db')
          | (Rejected e, db') => (Rejected e, db')
          end).
Proof.
  intros Hvm Hvs Hm Hs Hblank Hnone.
  pose proof (not_owned_false mid sid (messages db) Hnone) as Hfalse.
  destruct (blank_inv _ Hblank) as (text & -> & _).
  split; [|split; [|split]].
  - rewrite (updateMessage_run now _ text _ mid sid db Hvm Hvs Hm Hs Hblank).
    rewrite (updateFirst_none _ _ _ Hfalse). simpl. rewrite db_eta. reflexivity.
  - rewrite (deleteMessage_run _ _ mid sid db Hvm Hvs Hm Hs).
    rewrite (removeFirst_none _ _ Hfalse). simpl. rewrite db_eta. reflexivity.
  - intros db0. apply updateMessage_one_step; assumption.
  - intros db0. apply deleteMessage_one_step; assumption.
Qed.

(** Another user's message and a message that is not stored: the same error. *)
Lemma C1_witness :
  MessageService.updateMessage (H := HexOdm.odm) 5000%Z
    (JString Fixture.idMsg1) (JString "edited") (JString Fixture.idBen)
    Fixture.twoMessages
  = (Rejected (NewError msgUpdateNotFound), Fixture.twoMessages)
  /\ MessageService.updateMessage (H := HexOdm.odm) 5000%Z
    (JString Fixture.idMsg3) (JString "edited") (JString Fixture.idAna)
    Fixture.twoMessages
  = (Rejected (NewError msgUpdateNotFound), Fixture.twoMessages).
Proof.
  split.
  - apply (C1_no_match_is_one_not_found (H := HexOdm.odm) 5000%Z
             (JString Fixture.idMsg1) (JString "edited") (JString Fixture.idBen)
             Fixture.idMsg1 Fixture.idBen Fixture.twoMessages);
      try reflexivity.
    intros m Hm [Hid Hsender].
    apply elem_of_cons in Hm as [->|Hm]; [discriminate Hsender|].
    apply elem_of_cons in Hm as [->|Hm]; [discriminate Hid|inversion Hm].
  - apply (C1_no_match_is_one_not_found (H := HexOdm.odm) 5000%Z
             (JString Fixture.idMsg3) (JString "edited") (JString Fixture.idAna)
             Fixture.idMsg3 Fixture.idAna Fixture.twoMessages);
      try reflexivity.
    intros m Hm [Hid Hsender].
    apply elem_of_cons in Hm as [->|Hm]; [discriminate Hid|].
    apply elem_of_cons in Hm as [->|Hm]; [discriminate Hid|inversion Hm].
Defined.



(** What an update by the true sender does.  The [$set] names [content]
    and [updatedAt], but [messageSchema] declares no [updatedAt] path, so
    the cast against the strict schema keeps [content] alone: the stored
    message changes in its content only, to the trimmed text, the populated
    new state is the result, and neither the store nor the result depends
    on the time of the call. *)
Lemma update_sets_content_only `{Odm} (now : Date)
    (messageId senderId : JsValue) (text : string) (m : Message) (db : Db) :
  isValid messageId = true ->
  isValid senderId = true ->
  castObjectId messageId = Some (_id m) ->
  castObjectId senderId = Some (sender m) ->
  blank (JString text) = false ->
  m ∈ messages db ->
  uniqueIds db ->
  castUpdate (updateSet now text) = [ ("content", VString (trim text)) ]
  /\ (exists before after : list Message,
        messages db = before ++ m :: after
        /\ MessageService.updateMessage now messageId (JString text) senderId db
           = (Resolved (populate (users db) (withContent (trim text) m)),
              {| users := users db;
                 messages := before ++ withContent (trim text) m :: after |}))
  /\ (forall later : Date,
        MessageService.updateMessage later messageId (JString text) senderId db
        = MessageService.updateMessage now messageId (JString text) senderId db).
Proof.
  intros Hvm Hvs Hm Hs Hblank Hin Huniq.
  split; [reflexivity|].
  assert (matchesCond (ownerCond (_id m) (sender m)) m = true) as Hpm
    by (apply matchesCond_owner; split; reflexivity).
  destruct (split_at_match (matchesCond (ownerCond (_id m) (sender m)))
              (messages db) m (NoDup_messages _ Huniq) Hin Hpm)
    as (before & after & Hl & _ & Hup & _).
  { intros x Hx Hpx. apply matchesCond_owner in Hpx as [Hid _].
    apply (same_id_same_message (messages db)); assumption. }
  split.
  - exists before, after. split; [exact Hl|].
    rewrite (updateMessage_run now _ text _ _ _ db Hvm Hvs Hm Hs Hblank), Hup.
    reflexivity.
  - intros later.
    rewrite (updateMessage_run later _ text _ _ _ db Hvm Hvs Hm Hs Hblank).
    rewrite (updateMessage_run now _ text _ _ _ db Hvm Hvs Hm Hs Hblank).
    reflexivity.
Qed.

(** C6. The update of the specification's example, made by the sender at
    time 2000 on a message created at time 1000.  It succeeds, the content
    becomes the trimmed text and the new state comes back; but the cast of
    the [$set] has dropped [updatedAt], the record that is stored and
    returned has the paths of the schema as they were, and the same call
    at any other time gives the same store and the same record: no
    [updatedAt] is written. *)
Theorem C6_update_records_no_updatedAt :
  castUpdate (updateSet 2000%Z " hi there ") = [ ("content", VString "hi there") ]
  /\ MessageService.updateMessage (H := HexOdm.odm) 2000%Z
       (JString Fixture.idMsg1) (JString " hi there ") (JString Fixture.idAna)
       Fixture.twoMessages
     = (Resolved
          {| p_id := Fixture.idMsg1;
             p_content := "hi there";
             p_sender := Some {| ref_id := Fixture.idAna; ref_name := "Ana";
                                 ref_email := "ana@example.org" |};
             p_receiver := Some {| ref_id := Fixture.idBen; ref_name := "Ben";
                                   ref_email := "ben@example.org" |};
             p_read := false;
             p_createdAt := 1000%Z |},
        {| users := users Fixture.twoMessages;
           messages :=
             [ {| _id := Fixture.idMsg1; content := "hi there";
                  sender := Fixture.idAna; receiver := Fixture.idBen;
                  read := false; createdAt := 1000%Z |};
               Fixture.msg2 ] |})
  /\ MessageService.updateMessage (H := HexOdm.odm) 9000%Z
       (JString Fixture.idMsg1) (JString " hi there ") (JString Fixture.idAna)
       Fixture.twoMessages
     = MessageService.updateMessage (H := HexOdm.odm) 2000%Z
         (JString Fixture.idMsg1) (JString " hi there ") (JString Fixture.idAna)
         Fixture.twoMessages.
Proof. repeat split; vm_compute; reflexivity. Qed.

(** * The read path *)

Section ReadFacts.
Context `{Odm}.

#[export] Instance newerFirst_transitive : Transitive newerFirst.
Proof. intros a b c. unfold newerFirst. lia. Qed.

#[export] Instance newerFirst_total : Total newerFirst.
Proof. intros a b. unfold newerFirst. lia. Qed.

Lemma between_sym a b m : between a b m <-> between b a m.
Proof. unfold between. tauto. Qed.

Lemma matchesAny_pair a b m :
  matchesAny [pairCond a b; pairCond b a] m = bool_decide (between a b m).
Proof.
  apply Bool.eq_iff_eq_true.
  unfold matchesAny, matchesCond, pairCond, holds; simpl.
  rewrite orb_false_r, orb_true_iff, !andb_true_iff, !bool_decide_eq_true.
  unfold between. tauto.
Qed.

(** The three ways the pair query can go: no validation comes first, and
    a value that cannot be cast fails inside the mapper, which meets
    [userId1] first, as the receiver of the second branch. *)
Lemma getMessagesBetweenUsers_cases userId1 userId2 db :
  MessageService.getMessagesBetweenUsers userId1 userId2 db =
    match castObjectId userId1, castObjectId userId2 with
    | Some a, Some b =>
        (Resolved
           (map (populate (users db))
              (sortByCreatedAtDesc
                 (List.filter (fun m => bool_decide (between a b m))
                    (messages db)))), db)
    | None, _ =>
        (Rejected (OdmError (castErrorText userId1 "receiver" "Message")), db)
    | Some _, None =>
        (Rejected (OdmError (castErrorText userId2 "sender" "Message")), db)
    end.
Proof.
  unfold MessageService.getMessagesBetweenUsers, awaiting,
    MessageModel_find_sorted, populateAll, castOr, castFilter, castPath.
  simpl.
  destruct (castObjectId userId1) as [a|]; [|reflexivity].
  destruct (castObjectId userId2) as [b|]; [|reflexivity].
  simpl. do 4 f_equal. apply filter_ext. intros m. apply matchesAny_pair.
Qed.
End ReadFacts.



(** The later message comes first. *)
Example pair_history_most_recent_first :
  fst (MessageService.getMessagesBetweenUsers (H := HexOdm.odm)
         (JString Fixture.idAna) (JString Fixture.idBen) Fixture.twoMessages)
  = Resolved [ populate (users Fixture.twoMessages) Fixture.msg2;
               populate (users Fixture.twoMessages) Fixture.msg1 ].
Proof. vm_compute. reflexivity. Qed.

(** * The HTTP boundary *)

Section BoundaryFacts.
Context `{Odm}.

Lemma castFilter_rejected (f : MessageFilter) (e : Thrown) :
  castFilter f = Rejected e -> builtByService e = false.
Proof.
  unfold castFilter, castPath.
  destruct (by_id f) as [v1|]; [destruct (castObjectId v1)|];
    (destruct (by_sender f) as [v2|]; [destruct (castObjectId v2)|]);
    (destruct (by_receiver f) as [v3|]; [destruct (castObjectId v3)|]);
    intros E; inversion E; reflexivity.
Qed.

(** The errors [updateMessage] builds itself carry one of four texts. *)
Lemma updateMessage_texts now messageId content senderId db text :
  fst (MessageService.updateMessage now messageId content senderId db)
    = Rejected (NewError text) ->
  In text [ msgInvalidMessageId; msgContentRequired; msgInvalidSenderId;
            msgUpdateNotFound ].
Proof.
  unfold MessageService.updateMessage, awaiting, throwIf,
    MessageModel_findOneAndUpdate, populateFound.
  destruct (isValid messageId); simpl;
    [|intros E; inversion E; simpl; auto].
  destruct (MessageService.contentMissing content); simpl;
    [intros E; inversion E; simpl; auto|].
  destruct (isValid senderId); simpl;
    [|intros E; inversion E; simpl; auto].
  destruct (castFilter _) as [c|e] eqn:Ecast; simpl.
  - case_if; simpl; [discriminate|].
    destruct (fst (updateFirst _ _ _)); simpl;
      [discriminate|intros E; inversion E; simpl; auto].
  - apply castFilter_rejected in Ecast. destruct e; [discriminate Ecast|].
    discriminate.
Qed.

(** The errors [deleteMessage] builds itself carry one of three texts. *)
Lemma deleteMessage_texts messageId senderId db text :
  fst (MessageService.deleteMessage messageId senderId db)
    = Rejected (NewError text) ->
  In text [ msgInvalidMessageId; msgInvalidSenderId; msgDeleteNotFound ].
Proof.
  unfold MessageService.deleteMessage, awaiting, throwIf,
    MessageModel_findOneAndDelete, populateFound.
  destruct (isValid messageId); simpl;
    [|intros E; inversion E; simpl; auto].
  destruct (isValid senderId); simpl;
    [|intros E; inversion E; simpl; auto].
  destruct (castFilter _) as [c|e] eqn:Ecast; simpl.
  - destruct (fst (removeFirst _ _)); simpl;
      [discriminate|intros E; inversion E; simpl; auto].
  - apply castFilter_rejected in Ecast. destruct e; [discriminate Ecast|].
    discriminate.
Qed.

(** Where the [catch] block sends each text of the service. *)
Lemma mutationFailure_of_service_texts :
  MessageController.status
    (MessageController.mutationFailure (NewError msgInvalidMessageId)) = 400%Z
  /\ MessageController.status
    (MessageController.mutationFailure (NewError msgInvalidSenderId)) = 400%Z
  /\ MessageController.status
    (MessageController.mutationFailure (NewError msgContentRequired)) = 500%Z
  /\ MessageController.status
    (MessageController.mutationFailure (NewError msgUpdateNotFound)) = 403%Z
  /\ MessageController.status
    (MessageController.mutationFailure (NewError msgDeleteNotFound)) = 403%Z.
Proof. repeat split; reflexivity. Qed.

(** No error the service builds is answered with 404: the one text that
    contains "no encontrado" also contains "no tienes permiso", which the
    handler tests first.  A 404 can only come from a text of the mapper. *)
Lemma updateMessage_never_404 now messageId content senderId db :
  (exists text,
      fst (MessageService.updateMessage now messageId content senderId db)
      = Rejected (OdmError text))
  \/ In (MessageController.status
           (fst (MessageController.updateMessage now messageId content
                   senderId db)))
        [200; 400; 403; 500]%Z.
Proof.
  unfold MessageController.updateMessage.
  destruct (negb (truthy content) || negb (truthy senderId));
    [right; simpl; auto|].
  destruct (MessageService.updateMessage now messageId content senderId db)
    as [[m|[text|text]] db'] eqn:E; simpl.
  - right; auto.
  - right.
    pose proof (updateMessage_texts now messageId content senderId db text)
      as Htexts.
    rewrite E in Htexts. specialize (Htexts eq_refl). simpl in Htexts.
    destruct Htexts as [<-|[<-|[<-|[<-|[]]]]]; vm_compute; auto.
  - left; eauto.
Qed.

Lemma deleteMessage_never_404 messageId senderId db :
  (exists text,
      fst (MessageService.deleteMessage messageId senderId db)
      = Rejected (OdmError text))
  \/ In (MessageController.status
           (fst (MessageController.deleteMessage messageId senderId db)))
        [200; 400; 403; 500]%Z.
Proof.
  unfold MessageController.deleteMessage.
  destruct (negb (truthy senderId)); [right; simpl; auto|].
  destruct (MessageService.deleteMessage messageId senderId db)
    as [[m|[text|text]] db'] eqn:E; simpl.
  - right; auto.
  - right.
    pose proof (deleteMessage_texts messageId senderId db text) as Htexts.
    rewrite E in Htexts. specialize (Htexts eq_refl). simpl in Htexts.
    destruct Htexts as [<-|[<-|[<-|[]]]]; vm_compute; auto.
  - left; eauto.
Qed.
End BoundaryFacts.

(** C8. Where the handlers of update and delete send "not found".  A
    message that is not stored and a message of another user both end in
    the service's one error, whose text contains "no tienes permiso" as
    well as "no encontrado"; the handler tests the former first and
    answers 403.  The 404 branch is not taken ([updateMessage_never_404]
    and [deleteMessage_never_404]: it is taken for no error the service
    builds). *)
Theorem C8_not_found_is_answered_403 :
  includes msgDeleteNotFound "no tienes permiso" = true
  /\ includes msgDeleteNotFound "no encontrado" = true
  /\ fst (MessageController.deleteMessage (H := HexOdm.odm)
            (JString Fixture.idMsg3) (JString Fixture.idAna) Fixture.twoMessages)
     = {| MessageController.status := 403%Z;
          MessageController.json := MessageController.JsonError msgDeleteNotFound |}
  /\ fst (MessageController.deleteMessage (H := HexOdm.odm)
            (JString Fixture.idMsg1) (JString Fixture.idBen) Fixture.twoMessages)
     = {| MessageController.status := 403%Z;
          MessageController.json := MessageController.JsonError msgDeleteNotFound |}
  /\ fst (MessageController.updateMessage (H := HexOdm.odm) 5000%Z
            (JString Fixture.idMsg3) (JString "edited") (JString Fixture.idAna)
            Fixture.twoMessages)
     = {| MessageController.status := 403%Z;
          MessageController.json := MessageController.JsonError msgUpdateNotFound |}
  /\ fst (MessageController.updateMessage (H := HexOdm.odm) 5000%Z
            (JString Fixture.idMsg1) (JString "edited") (JString Fixture.idBen)
            Fixture.twoMessages)
     = {| MessageController.status := 403%Z;
          MessageController.json := MessageController.JsonError msgUpdateNotFound |}.
Proof. repeat split; vm_compute; reflexivity. Qed.

(** C9, as the code has it.  [getMessagesBetweenUsers] checks nothing
    about its two arguments: whatever they are, the outcome is that of the
    pair query, the store is untouched and no error built by the service
    comes out, so that the handler's 400 can only answer a text of the
    mapper.  When one of the two cannot be cast, the call fails inside the
    mapper with the cast error of the first value the mapper meets, and
    the handler answers 500, unless that text, which quotes the value,
    itself contains "inválido": then it answers 400. *)
Theorem C9_read_path_validates_nothing `{Odm} (userId1 userId2 : JsValue)
    (db : Db) :
  let out := MessageService.getMessagesBetweenUsers userId1 userId2 db in
  let res := MessageController.getMessagesBetweenUsers userId1 userId2 db in
  serviceBuilt (fst out) = false
  /\ snd out = db
  /\ (MessageController.status (fst res) = 400%Z ->
      exists text, fst out = Rejected (OdmError text)
                   /\ includes text "inválido" = true)
  /\ (castObjectId userId1 = None \/ castObjectId userId2 = None ->
      let text :=
        match castObjectId userId1 with
        | None => castErrorText userId1 "receiver" "Message"
        | Some _ => castErrorText userId2 "sender" "Message"
        end in
      out = (Rejected (OdmError text), db)
      /\ MessageController.status (fst res)
         = (if includes text "inválido" then 400%Z else 500%Z)).
Proof.
  intros out res. subst out res.
  unfold MessageController.getMessagesBetweenUsers.
  rewrite getMessagesBetweenUsers_cases.
  destruct (castObjectId userId1) as [a|] eqn:E1;
    [destruct (castObjectId userId2) as [b|] eqn:E2|]; simpl.
  - split; [reflexivity|]. split; [reflexivity|]. split.
    + case_if; simpl; discriminate.
    + intros [Hbad|Hbad]; discriminate Hbad.
  - split; [reflexivity|]. split; [reflexivity|]. split.
    + case_if; simpl; [eauto|discriminate].
    + intros _. split; [reflexivity|]. case_if; reflexivity.
  - split; [reflexivity|]. split; [reflexivity|]. split.
    + case_if; simpl; [eauto|discriminate].
    + intros _. split; [reflexivity|]. case_if; reflexivity.
Qed.

(** A malformed first identifier, over the concrete mapper: the mapper
    meets it as the receiver of the second branch, and the answer is 500. *)
Lemma C9_witness :
  castObjectId (Odm := HexOdm.odm) (JString "abc") = None
  /\ MessageService.getMessagesBetweenUsers (H := HexOdm.odm)
       (JString "abc") (JString Fixture.idAna) Fixture.twoMessages
     = (Rejected
          (OdmError (castErrorText (Odm := HexOdm.odm) (JString "abc")
                       "receiver" "Message")),
        Fixture.twoMessages)
  /\ MessageController.status
       (fst (MessageController.getMessagesBetweenUsers (H := HexOdm.odm)
               (JString "abc") (JString Fixture.idAna) Fixture.twoMessages))
     = 500%Z.
Proof.
  split; [reflexivity|].
  destruct (C9_read_path_validates_nothing (H := HexOdm.odm)
              (JString "abc") (JString Fixture.idAna) Fixture.twoMessages)
    as (_ & _ & _ & Hbad).
  destruct (Hbad (or_introl eq_refl)) as (Hout & Hstatus).
  split; [exact Hout|exact Hstatus].
Defined.

(** The claim's last clause fails: an identifier that cannot be cast and
    contains "inválido" is quoted in the mapper's cast error, and the
    handler answers 400, not 500. *)
Lemma C9_counterexample :
  castObjectId (Odm := HexOdm.odm) (JString "inválido") = None
  /\ MessageService.getMessagesBetweenUsers (H := HexOdm.odm)
       (JString "inválido") (JString Fixture.idAna) Fixture.twoMessages
     = (Rejected
          (OdmError (castErrorText (Odm := HexOdm.odm) (JString "inválido")
                       "receiver" "Message")),
        Fixture.twoMessages)
  /\ MessageController.status
       (fst (MessageController.getMessagesBetweenUsers (H := HexOdm.odm)
               (JString "inválido") (JString Fixture.idAna)
               Fixture.twoMessages))
     = 400%Z
  /\ MessageController.status
       (fst (MessageController.getMessagesBetweenUsers (H := HexOdm.odm)
               (JString "inválido") (JString Fixture.idAna)
               Fixture.twoMessages))
     <> 500%Z.
Proof. repeat split; vm_compute; try reflexivity; discriminate. Qed.

(** * Further properties of the service, the handlers and the router *)

Section MoreListFacts.
Context `{Odm}.

Lemma updateFirst_nothing (p : Message -> bool) f (l : list Message) :
  fst (updateFirst p f l) = None -> snd (updateFirst p f l) = l.
Proof.
  induction l as [|a l IH]; simpl; [reflexivity|].
  destruct (p a); simpl; [discriminate|].
  intros Hnone. rewrite IH by exact Hnone. reflexivity.
Qed.

Lemma removeFirst_nothing (p : Message -> bool) (l : list Message) :
  fst (removeFirst p l) = None -> snd (removeFirst p l) = l.
Proof.
  induction l as [|a l IH]; simpl; [reflexivity|].
  destruct (p a); simpl; [discriminate|].
  intros Hnone. rewrite IH by exact Hnone. reflexivity.
Qed.

Lemma updateFirst_map {B} (g : Message -> B) (p : Message -> bool) f
    (l : list Message) :
  (forall m, g (f m) = g m) ->
  map g (snd (updateFirst p f l)) = map g l.
Proof.
  intros Hg. induction l as [|a l IH]; simpl; [reflexivity|].
  destruct (p a); simpl; [rewrite Hg|rewrite IH]; reflexivity.
Qed.

Lemma updateFirst_shape (p : Message -> bool) f (l : list Message) m' :
  fst (updateFirst p f l) = Some m' ->
  exists (before : list Message) (m : Message) (after : list Message),
    l = before ++ m :: after
    /\ m' = f m
    /\ snd (updateFirst p f l) = before ++ f m :: after
    /\ p m = true
    /\ (forall x, x ∈ before -> p x = false).
Proof.
  induction l as [|a l IH]; simpl; [discriminate|].
  destruct (p a) eqn:Hpa; simpl.
  - intros E. inversion E; subst. exists [], a, l. repeat split; auto.
    intros x Hx. inversion Hx.
  - intros E. destruct (IH E) as (before & m & after & Hl & Hm & Hsnd & Hp & Hb).
    exists (a :: before), m, after. rewrite Hsnd, Hl. repeat split; auto.
    intros x Hx. apply elem_of_cons in Hx as [->|Hx]; auto.
Qed.

Lemma removeFirst_shape (p : Message -> bool) (l : list Message) m :
  fst (removeFirst p l) = Some m ->
  exists before after : list Message,
    l = before ++ m :: after
    /\ snd (removeFirst p l) = before ++ after
    /\ p m = true
    /\ (forall x, x ∈ before -> p x = false).
Proof.
  induction l as [|a l IH]; simpl; [discriminate|].
  destruct (p a) eqn:Hpa; simpl.
  - intros E. inversion E; subst. exists [], l. repeat split; auto.
    intros x Hx. inversion Hx.
  - intros E. destruct (IH E) as (before & after & Hl & Hsnd & Hp & Hb).
    exists (a :: before), after. rewrite Hsnd, Hl. repeat split; auto.
    intros x Hx. apply elem_of_cons in Hx as [->|Hx]; auto.
Qed.

Lemma updateFirst_again (p : Message -> bool) f (l : list Message) :
  (forall m, p (f m) = p m) -> (forall m, f (f m) = f m) ->
  updateFirst p f (snd (updateFirst p f l)) = updateFirst p f l.
Proof.
  intros Hp Hf. induction l as [|a l IH]; simpl; [reflexivity|].
  destruct (p a) eqn:Hpa; simpl.
  - rewrite Hp, Hpa, Hf. reflexivity.
  - rewrite Hpa, IH. reflexivity.
Qed.

Lemma removeFirst_last (p : Message -> bool) (l : list Message) m :
  (forall x, x ∈ l -> p x = false) -> p m = true ->
  removeFirst p (l ++ [m]) = (Some m, l).
Proof.
  intros Hl Hm. induction l as [|a l IH]; simpl.
  - rewrite Hm. reflexivity.
  - rewrite (Hl a) by apply list_elem_of_here.
    rewrite IH by (intros x Hx; apply Hl, list_elem_of_further, Hx).
    reflexivity.
Qed.

Lemma trimmed_not_empty (content : JsValue) :
  blank content = false -> String.eqb (MessageService.trimmed content) "" = false.
Proof. intros Hb. destruct (blank_inv _ Hb) as (s & -> & Hs). exact Hs. Qed.

(** ** The three service operations that write, on any arguments *)

Lemma sendMessage_cases now newId senderId receiverId content db :
  MessageService.sendMessage now newId senderId receiverId content db =
    if blank content then (Rejected (NewError msgContentRequired), db)
    else
      match castObjectId senderId with
      | None => (Rejected (OdmError (castErrorText senderId "_id" "User")), db)
      | Some s =>
          match castObjectId receiverId with
          | None =>
              (Rejected (OdmError (castErrorText receiverId "_id" "User")), db)
          | Some r =>
              match find (userMatches s true) (users db) with
              | None => (Rejected (NewError msgSenderNotFound), db)
              | Some su =>
                  match find (userMatches r true) (users db) with
                  | None => (Rejected (NewError msgReceiverNotFound), db)
                  | Some ru =>
                      let doc :=
                        {| _id := newId;
                           content := MessageService.trimmed content;
                           sender := User._id su; receiver := User._id ru;
                           read := false; createdAt := now |} in
                      (Resolved doc,
                       {| users := users db; messages := messages db ++ [doc] |})
                  end
              end
          end
      end.
Proof.
  unfold MessageService.sendMessage, awaiting, throwIf, Promise_all,
    UserModel_findOne.
  rewrite contentMissing_blank.
  destruct (blank content) eqn:Hblank; simpl; [reflexivity|].
  destruct (castObjectId senderId) as [s|]; simpl; [|reflexivity].
  destruct (castObjectId receiverId) as [r|]; simpl; [|reflexivity].
  destruct (find (userMatches s true) (users db)) as [su|]; simpl;
    [|reflexivity].
  destruct (find (userMatches r true) (users db)) as [ru|]; simpl;
    [|reflexivity].
  unfold save; simpl. rewrite (trimmed_not_empty _ Hblank). reflexivity.
Qed.

Lemma updateMessage_cases now messageId content senderId db :
  MessageService.updateMessage now messageId content senderId db =
    if negb (isValid messageId)
    then (Rejected (NewError msgInvalidMessageId), db)
    else if blank content
    then (Rejected (NewError msgContentRequired), db)
    else if negb (isValid senderId)
    then (Rejected (NewError msgInvalidSenderId), db)
    else
      match castFilter {| by_id := Some messageId; by_sender := Some senderId;
                          by_receiver := None |} with
      | Rejected e => (Rejected e, db)
      | Resolved cond =>
          let r := updateFirst (matchesCond cond)
                     (withContent (MessageService.trimmed content))
                     (messages db) in
          let db' := {| users := users db; messages := snd r |} in
          match fst r with
          | None => (Rejected (NewError msgUpdateNotFound), db')
          | Some m => (Resolved (populate (users db) m), db')
          end
      end.
Proof.
  unfold MessageService.updateMessage, awaiting, throwIf,
    MessageModel_findOneAndUpdate, populateFound.
  rewrite contentMissing_blank.
  destruct (isValid messageId); simpl; [|reflexivity].
  destruct (blank content) eqn:Hblank; simpl; [reflexivity|].
  destruct (isValid senderId); simpl; [|reflexivity].
  destruct (castFilter _) as [cond|e]; simpl; [|reflexivity].
  rewrite (trimmed_not_empty _ Hblank). simpl.
  change (applySet [("content", VString (MessageService.trimmed content))])
    with (withContent (MessageService.trimmed content)).
  destruct (fst (updateFirst (matchesCond cond)
                   (withContent (MessageService.trimmed content))
                   (messages db))); reflexivity.
Qed.

Lemma deleteMessage_cases messageId senderId db :
  MessageService.deleteMessage messageId senderId db =
    if negb (isValid messageId)
    then (Rejected (NewError msgInvalidMessageId), db)
    else if negb (isValid senderId)
    then (Rejected (NewError msgInvalidSenderId), db)
    else
      match castFilter {| by_id := Some messageId; by_sender := Some senderId;
                          by_receiver := None |} with
      | Rejected e => (Rejected e, db)
      | Resolved cond =>
          let r := removeFirst (matchesCond cond) (messages db) in
          let db' := {| users := users db; messages := snd r |} in
          match fst r with
          | None => (Rejected (NewError msgDeleteNotFound), db')
          | Some m => (Resolved (populate (users db) m), db')
          end
      end.
Proof.
  unfold MessageService.deleteMessage, awaiting, throwIf,
    MessageModel_findOneAndDelete, populateFound.
  destruct (isValid messageId); simpl; [|reflexivity].
  destruct (isValid senderId); simpl; [|reflexivity].
  destruct (castFilter _) as [cond|e]; simpl; [|reflexivity].
  destruct (fst (removeFirst (matchesCond cond) (messages db))); reflexivity.
Qed.
End MoreListFacts.

(** ** All or nothing *)

Section CleanFailure.
Context `{Odm}.

Lemma sendMessage_fails_clean now newId id1 id2 newContent :
  failsClean (MessageService.sendMessage now newId id1 id2 newContent).
Proof.
  intros db e. rewrite sendMessage_cases.
  repeat case_if; try reflexivity.
  destruct (castObjectId id1); [|reflexivity].
  destruct (castObjectId id2); [|reflexivity].
  destruct (find _ (users db)); [|reflexivity].
  destruct (find _ (users db)); [|reflexivity].
  simpl. discriminate.
Qed.

Lemma getMessagesBetweenUsers_reads_only id1 id2 db :
  snd (MessageService.getMessagesBetweenUsers id1 id2 db) = db.
Proof.
  rewrite getMessagesBetweenUsers_cases.
  destruct (castObjectId id1); [destruct (castObjectId id2)|]; reflexivity.
Qed.

Lemma updateMessage_fails_clean now id1 newContent id2 :
  failsClean (MessageService.updateMessage now id1 newContent id2).
Proof.
  intros db e. rewrite updateMessage_cases.
  repeat case_if; try reflexivity.
  destruct (castFilter _) as [cond|e']; [|reflexivity]. simpl.
  destruct (fst (updateFirst _ _ _)) eqn:E; simpl; [discriminate|].
  intros _. rewrite (updateFirst_nothing _ _ _ E). apply db_eta.
Qed.

Lemma deleteMessage_fails_clean id1 id2 :
  failsClean (MessageService.deleteMessage id1 id2).
Proof.
  intros db e. rewrite deleteMessage_cases.
  repeat case_if; try reflexivity.
  destruct (castFilter _) as [cond|e']; [|reflexivity]. simpl.
  destruct (fst (removeFirst _ _)) eqn:E; simpl; [discriminate|].
  intros _. rewrite (removeFirst_nothing _ _ E). apply db_eta.
Qed.
End CleanFailure.

(** X1. Each of the four operations of the service is all or nothing: a
    call that rejects, whatever the reason (validation, a failed cast, a
    lookup or a match that misses), leaves both collections as they were. *)
Theorem X1_rejected_call_changes_nothing `{Odm} (now : Date) (newId : ObjectId)
    (id1 id2 content : JsValue) :
  failsClean (MessageService.sendMessage now newId id1 id2 content)
  /\ failsClean (MessageService.getMessagesBetweenUsers id1 id2)
  /\ failsClean (MessageService.updateMessage now id1 content id2)
  /\ failsClean (MessageService.deleteMessage id1 id2).
Proof.
  split; [|split; [|split]].
  - apply sendMessage_fails_clean.
  - intros db e _. apply getMessagesBetweenUsers_reads_only.
  - apply updateMessage_fails_clean.
  - apply deleteMessage_fails_clean.
Qed.

(** A delete by someone who is not the sender: rejected, nothing changed. *)
Lemma X1_witness :
  snd (MessageService.deleteMessage (H := HexOdm.odm)
         (JString Fixture.idMsg1) (JString Fixture.idBen) Fixture.twoMessages)
  = Fixture.twoMessages.
Proof.
  destruct (X1_rejected_call_changes_nothing (H := HexOdm.odm) 0%Z
              Fixture.idMsg3 (JString Fixture.idMsg1) (JString Fixture.idBen)
              JUndefined) as (_ & _ & _ & Hdelete).
  apply (Hdelete Fixture.twoMessages (NewError msgDeleteNotFound)).
  reflexivity.
Defined.

(** X2. No operation of the service writes to the users collection:
    after any call, successful or not, the users are those before it. *)
Theorem X2_users_are_never_written `{Odm} (now : Date) (newId : ObjectId)
    (id1 id2 content : JsValue) :
  keepsUsers (MessageService.sendMessage now newId id1 id2 content)
  /\ keepsUsers (MessageService.getMessagesBetweenUsers id1 id2)
  /\ keepsUsers (MessageService.updateMessage now id1 content id2)
  /\ keepsUsers (MessageService.deleteMessage id1 id2).
Proof.
  unfold keepsUsers. split; [|split; [|split]]; intros db.
  - rewrite sendMessage_cases.
    repeat case_if; try reflexivity.
    destruct (castObjectId id1); [|reflexivity].
    destruct (castObjectId id2); [|reflexivity].
    destruct (find _ (users db)); [|reflexivity].
    destruct (find _ (users db)); reflexivity.
  - rewrite getMessagesBetweenUsers_cases.
    destruct (castObjectId id1); [destruct (castObjectId id2)|]; reflexivity.
  - rewrite updateMessage_cases.
    repeat case_if; try reflexivity.
    destruct (castFilter _) as [cond|e']; [|reflexivity]. simpl.
    destruct (fst (updateFirst _ _ _)); reflexivity.
  - rewrite deleteMessage_cases.
    repeat case_if; try reflexivity.
    destruct (castFilter _) as [cond|e']; [|reflexivity]. simpl.
    destruct (fst (removeFirst _ _)); reflexivity.
Qed.

(** X3. [updateMessage] rewrites content and nothing else.  Whatever the
    arguments and whatever the outcome, the collection after the call has
    the same messages in the same order as far as [_id], [sender],
    [receiver], [read] and [createdAt] go. *)
Theorem X3_update_keeps_every_other_path `{Odm} (now : Date)
    (messageId newContent senderId : JsValue) (db : Db) :
  map frame
    (messages (snd (MessageService.updateMessage now messageId newContent
                      senderId db)))
  = map frame (messages db).
Proof.
  rewrite updateMessage_cases.
  repeat case_if; try reflexivity.
  destruct (castFilter _) as [cond|e']; [|reflexivity]. simpl.
  assert (map frame
            (snd (updateFirst (matchesCond cond)
                    (withContent (MessageService.trimmed newContent))
                    (messages db)))
          = map frame (messages db)) as Hframe
    by (apply updateFirst_map; intros m; reflexivity).
  destruct (fst (updateFirst _ _ _)); simpl; exact Hframe.
Qed.

(** ** What a successful update or delete does to the collection *)

Section MoreMessageFacts.
Context `{Odm}.

Lemma castFilter_owner_inv messageId senderId cond :
  castFilter {| by_id := Some messageId; by_sender := Some senderId;
                by_receiver := None |} = Resolved cond ->
  exists mid sid,
    castObjectId messageId = Some mid /\ castObjectId senderId = Some sid
    /\ cond = ownerCond mid sid.
Proof.
  unfold castFilter, castPath; simpl.
  destruct (castObjectId senderId) as [sid|]; [|discriminate].
  destruct (castObjectId messageId) as [mid|]; [|discriminate].
  intros E. inversion E. eauto.
Qed.

Lemma not_matching_not_owned mid sid (l : list Message) :
  (forall x, x ∈ l -> matchesCond (ownerCond mid sid) x = false) ->
  forall x, x ∈ l -> ~ ownedBy mid sid x.
Proof.
  intros Hl x Hx Hown. apply matchesCond_owner in Hown.
  rewrite (Hl x Hx) in Hown. discriminate.
Qed.

Lemma removeFirst_elem (p : Message -> bool) (l : list Message) x :
  x ∈ snd (removeFirst p l) -> x ∈ l.
Proof.
  induction l as [|a l IH]; simpl; [auto|].
  destruct (p a); simpl.
  - apply list_elem_of_further.
  - intros Hx. apply elem_of_cons in Hx as [->|Hx];
      [apply list_elem_of_here|apply list_elem_of_further, IH, Hx].
Qed.

Lemma updateFirst_elem (p : Message -> bool) f (l : list Message) x :
  x ∈ snd (updateFirst p f l) -> x ∈ l \/ exists m, m ∈ l /\ x = f m.
Proof.
  induction l as [|a l IH]; simpl; [auto|].
  destruct (p a); simpl; intros Hx; apply elem_of_cons in Hx as [->|Hx].
  - right. exists a. split; [apply list_elem_of_here|reflexivity].
  - left. apply list_elem_of_further, Hx.
  - left. apply list_elem_of_here.
  - destruct (IH Hx) as [Hin|(m & Hin & ->)].
    + left. apply list_elem_of_further, Hin.
    + right. exists m. split; [apply list_elem_of_further, Hin|reflexivity].
Qed.

Lemma removeFirst_NoDup {B} (g : Message -> B) (p : Message -> bool)
    (l : list Message) :
  NoDup (map g l) -> NoDup (map g (snd (removeFirst p l))).
Proof.
  induction l as [|a l IH]; simpl; [auto|].
  intros Hnd. apply NoDup_cons in Hnd as [Hnotin Hnd].
  destruct (p a); simpl; [exact Hnd|].
  apply NoDup_cons. split; [|auto].
  intros Hin. apply Hnotin.
  apply list_elem_of_In, in_map_iff in Hin as (x & Hgx & Hx).
  apply list_elem_of_In, in_map_iff. exists x. split; [exact Hgx|].
  apply list_elem_of_In, removeFirst_elem with (p := p), list_elem_of_In, Hx.
Qed.
End MoreMessageFacts.

(** X4. A delete that succeeds removes one message and no more: the first
    stored message with that [_id] and that sender.  It is the record that
    comes back, and every other message stays, in its place. *)
Theorem X4_delete_removes_the_first_match_only `{Odm}
    (messageId senderId : JsValue) (deleted : PopulatedMessage) (db : Db) :
  fst (MessageService.deleteMessage messageId senderId db) = Resolved deleted ->
  exists (mid sid : ObjectId) (before : list Message) (m : Message)
         (after : list Message),
    castObjectId messageId = Some mid
    /\ castObjectId senderId = Some sid
    /\ messages db = before ++ m :: after
    /\ ownedBy mid sid m
    /\ (forall x, x ∈ before -> ~ ownedBy mid sid x)
    /\ deleted = populate (users db) m
    /\ snd (MessageService.deleteMessage messageId senderId db)
       = {| users := users db; messages := before ++ after |}.
Proof.
  rewrite deleteMessage_cases.
  repeat case_if; try discriminate.
  destruct (castFilter _) as [cond|e'] eqn:Ecast; [|discriminate].
  destruct (castFilter_owner_inv _ _ _ Ecast) as (mid & sid & Hm & Hs & ->).
  simpl.
  destruct (fst (removeFirst _ _)) as [m|] eqn:E; simpl; [|discriminate].
  intros Hres. inversion Hres; subst deleted.
  destruct (removeFirst_shape _ _ _ E) as (before & after & Hl & Hsnd & Hp & Hb).
  exists mid, sid, before, m, after. rewrite Hsnd.
  repeat split; auto.
  - apply matchesCond_owner in Hp. apply Hp.
  - apply matchesCond_owner in Hp. apply Hp.
  - intros x Hx Hown. exact (not_matching_not_owned _ _ _ Hb x Hx Hown).
Qed.

Lemma X4_witness :
  exists (mid sid : ObjectId) (before : list Message) (m : Message)
         (after : list Message),
    castObjectId (Odm := HexOdm.odm) (JString Fixture.idMsg2) = Some mid
    /\ castObjectId (Odm := HexOdm.odm) (JString Fixture.idBen) = Some sid
    /\ messages Fixture.twoMessages = before ++ m :: after
    /\ ownedBy mid sid m
    /\ (forall x, x ∈ before -> ~ ownedBy mid sid x)
    /\ populate (users Fixture.twoMessages) Fixture.msg2
       = populate (users Fixture.twoMessages) m
    /\ snd (MessageService.deleteMessage (H := HexOdm.odm)
              (JString Fixture.idMsg2) (JString Fixture.idBen)
              Fixture.twoMessages)
       = {| users := users Fixture.twoMessages; messages := before ++ after |}.
Proof.
  apply (X4_delete_removes_the_first_match_only (H := HexOdm.odm)
           (JString Fixture.idMsg2) (JString Fixture.idBen)
           (populate (users Fixture.twoMessages) Fixture.msg2)
           Fixture.twoMessages).
  reflexivity.
Defined.

(** X5. An update that succeeds rewrites one message and no more: the
    first stored message with that [_id] and that sender gets the trimmed
    content, its populated new state comes back, and every other message
    is what it was, in its place. *)
Theorem X5_update_rewrites_the_first_match_only `{Odm} (now : Date)
    (messageId senderId : JsValue) (text : string) (updated : PopulatedMessage)
    (db : Db) :
  fst (MessageService.updateMessage now messageId (JString text) senderId db)
    = Resolved updated ->
  exists (mid sid : ObjectId) (before : list Message) (m : Message)
         (after : list Message),
    castObjectId messageId = Some mid
    /\ castObjectId senderId = Some sid
    /\ messages db = before ++ m :: after
    /\ ownedBy mid sid m
    /\ (forall x, x ∈ before -> ~ ownedBy mid sid x)
    /\ updated = populate (users db) (withContent (trim text) m)
    /\ snd (MessageService.updateMessage now messageId (JString text)
              senderId db)
       = {| users := users db;
            messages := before ++ withContent (trim text) m :: after |}.
Proof.
  rewrite updateMessage_cases.
  repeat case_if; try discriminate.
  destruct (castFilter _) as [cond|e'] eqn:Ecast; [|discriminate].
  destruct (castFilter_owner_inv _ _ _ Ecast) as (mid & sid & Hm & Hs & ->).
  simpl.
  destruct (fst (updateFirst _ _ _)) as [m'|] eqn:E; simpl; [|discriminate].
  intros Hres. inversion Hres; subst updated.
  destruct (updateFirst_shape _ _ _ _ E)
    as (before & m & after & Hl & -> & Hsnd & Hp & Hb).
  exists mid, sid, before, m, after. rewrite Hsnd.
  repeat split; auto.
  - apply matchesCond_owner in Hp. apply Hp.
  - apply matchesCond_owner in Hp. apply Hp.
  - intros x Hx Hown. exact (not_matching_not_owned _ _ _ Hb x Hx Hown).
Qed.

Lemma X5_witness :
  exists (mid sid : ObjectId) (before : list Message) (m : Message)
         (after : list Message),
    castObjectId (Odm := HexOdm.odm) (JString Fixture.idMsg2) = Some mid
    /\ castObjectId (Odm := HexOdm.odm) (JString Fixture.idBen) = Some sid
    /\ messages Fixture.twoMessages = before ++ m :: after
    /\ ownedBy mid sid m
    /\ (forall x, x ∈ before -> ~ ownedBy mid sid x)
    /\ populate (users Fixture.twoMessages) (withContent "bye" Fixture.msg2)
       = populate (users Fixture.twoMessages) (withContent (trim " bye") m)
    /\ snd (MessageService.updateMessage (H := HexOdm.odm) 7000%Z
              (JString Fixture.idMsg2) (JString " bye") (JString Fixture.idBen)
              Fixture.twoMessages)
       = {| users := users Fixture.twoMessages;
            messages := before ++ withContent (trim " bye") m :: after |}.
Proof.
  apply (X5_update_rewrites_the_first_match_only (H := HexOdm.odm) 7000%Z
           (JString Fixture.idMsg2) (JString Fixture.idBen) " bye"
           (populate (users Fixture.twoMessages) (withContent "bye" Fixture.msg2))
           Fixture.twoMessages).
  reflexivity.
Defined.

(** ** Invariants of the Message collection *)

(** X6. No operation leaves a message with empty content behind: if every
    stored message has content that is not empty, so has every message
    stored after a send, an update or a delete, on any arguments. *)
Theorem X6_content_is_never_empty `{Odm} (now : Date) (newId : ObjectId)
    (id1 id2 newContent : JsValue) (db : Db) :
  contentful db ->
  contentful (snd (MessageService.sendMessage now newId id1 id2 newContent db))
  /\ contentful (snd (MessageService.updateMessage now id1 newContent id2 db))
  /\ contentful (snd (MessageService.deleteMessage id1 id2 db)).
Proof.
  intros Hdb. unfold contentful in *. split; [|split].
  - rewrite sendMessage_cases.
    destruct (blank newContent) eqn:Hblank; [exact Hdb|].
    destruct (castObjectId id1); [|exact Hdb].
    destruct (castObjectId id2); [|exact Hdb].
    destruct (find _ (users db)); [|exact Hdb].
    destruct (find _ (users db)); [|exact Hdb].
    simpl. intros m Hm. apply elem_of_app in Hm as [Hm|Hm]; [auto|].
    apply list_elem_of_singleton in Hm as ->. simpl.
    intros Hempty. pose proof (trimmed_not_empty _ Hblank) as Hne.
    rewrite Hempty in Hne. discriminate.
  - rewrite updateMessage_cases.
    case_if; [exact Hdb|].
    destruct (blank newContent) eqn:Hblank; [exact Hdb|].
    case_if; [exact Hdb|].
    destruct (castFilter _) as [cond|e']; [|exact Hdb]. simpl.
    assert (forall m,
               m ∈ snd (updateFirst (matchesCond cond)
                          (withContent (MessageService.trimmed newContent))
                          (messages db)) -> content m <> "") as Hafter.
    { intros m Hm. apply updateFirst_elem in Hm as [Hm|(m0 & _ & ->)]; [auto|].
      simpl. intros Hempty. pose proof (trimmed_not_empty _ Hblank) as Hne.
      rewrite Hempty in Hne. discriminate. }
    destruct (fst (updateFirst _ _ _)); simpl; exact Hafter.
  - rewrite deleteMessage_cases.
    repeat case_if; try exact Hdb.
    destruct (castFilter _) as [cond|e']; [|exact Hdb]. simpl.
    assert (forall m,
               m ∈ snd (removeFirst (matchesCond cond) (messages db)) ->
               content m <> "") as Hafter
      by (intros m Hm; apply Hdb, (removeFirst_elem _ _ _ Hm)).
    destruct (fst (removeFirst _ _)); simpl; exact Hafter.
Qed.

Lemma X6_witness :
  contentful (snd (MessageService.updateMessage (H := HexOdm.odm) 7000%Z
                     (JString Fixture.idMsg1) (JString " x ")
                     (JString Fixture.idAna) Fixture.twoMessages)).
Proof.
  apply (X6_content_is_never_empty (H := HexOdm.odm) 7000%Z Fixture.idMsg3
           (JString Fixture.idMsg1) (JString Fixture.idAna) (JString " x ")
           Fixture.twoMessages).
  intros m Hm.
  apply elem_of_cons in Hm as [->|Hm]; [discriminate|].
  apply list_elem_of_singleton in Hm as ->. discriminate.
Defined.

(** X7. The service keeps [_id] unique.  In a collection without two
    messages of the same [_id], an update and a delete never create one,
    on any arguments; neither does a send, when the identifier given to
    the new document is not that of a stored message. *)
Theorem X7_ids_stay_unique `{Odm} (now : Date) (newId : ObjectId)
    (id1 id2 newContent : JsValue) (db : Db) :
  uniqueIds db ->
  uniqueIds (snd (MessageService.updateMessage now id1 newContent id2 db))
  /\ uniqueIds (snd (MessageService.deleteMessage id1 id2 db))
  /\ (newId ∉ map _id (messages db) ->
      uniqueIds (snd (MessageService.sendMessage now newId id1 id2 newContent db))).
Proof.
  intros Hdb. unfold uniqueIds in *. split; [|split].
  - rewrite updateMessage_cases.
    repeat case_if; try exact Hdb.
    destruct (castFilter _) as [cond|e']; [|exact Hdb]. simpl.
    assert (NoDup (map _id
                     (snd (updateFirst (matchesCond cond)
                             (withContent (MessageService.trimmed newContent))
                             (messages db)))))
      as Hafter
      by (rewrite updateFirst_map; [exact Hdb|intros m; reflexivity]).
    destruct (fst (updateFirst _ _ _)); simpl; exact Hafter.
  - rewrite deleteMessage_cases.
    repeat case_if; try exact Hdb.
    destruct (castFilter _) as [cond|e']; [|exact Hdb]. simpl.
    pose proof (removeFirst_NoDup _id (matchesCond cond) _ Hdb) as Hafter.
    destruct (fst (removeFirst _ _)); simpl; exact Hafter.
  - intros Hfresh. rewrite sendMessage_cases.
    case_if; [exact Hdb|].
    destruct (castObjectId id1); [|exact Hdb].
    destruct (castObjectId id2); [|exact Hdb].
    destruct (find _ (users db)); [|exact Hdb].
    destruct (find _ (users db)); [|exact Hdb].
    simpl. rewrite map_app. simpl. apply NoDup_app. split; [exact Hdb|].
    split; [|apply NoDup_singleton].
    intros x Hx Hx'. apply list_elem_of_singleton in Hx' as ->. auto.
Qed.

Lemma X7_witness :
  uniqueIds (snd (MessageService.deleteMessage (H := HexOdm.odm)
                    (JString Fixture.idMsg1) (JString Fixture.idAna)
                    Fixture.twoMessages)).
Proof.
  apply (X7_ids_stay_unique (H := HexOdm.odm) 0%Z Fixture.idMsg3
           (JString Fixture.idMsg1) (JString Fixture.idAna) JUndefined
           Fixture.twoMessages).
  unfold uniqueIds. simpl. repeat constructor.
  - intros Hin. apply list_elem_of_singleton in Hin. discriminate Hin.
  - intros Hin. inversion Hin.
Defined.

(** ** How the operations compose *)

(** X8. A message that was sent is in the history of the pair.  After a
    successful [sendMessage], [getMessagesBetweenUsers] for the sender and
    the receiver, asked in either order, resolves to the populated form of
    a list that holds the new message and, besides it, exactly the
    messages that were between the two before. *)
Theorem X8_sent_message_is_in_the_history `{Odm} (now : Date) (newId : ObjectId)
    (senderId receiverId : JsValue) (text : string) (s r : ObjectId) (db : Db) :
  blank (JString text) = false ->
  castObjectId senderId = Some s ->
  castObjectId receiverId = Some r ->
  availableUser db s ->
  availableUser db r ->
  let doc := newMessage now newId text s r in
  let db' := snd (MessageService.sendMessage now newId senderId receiverId
                    (JString text) db) in
  exists found : list Message,
    MessageService.getMessagesBetweenUsers senderId receiverId db'
      = (Resolved (map (populate (users db)) found), db')
    /\ MessageService.getMessagesBetweenUsers receiverId senderId db'
      = (Resolved (map (populate (users db)) found), db')
    /\ doc ∈ found
    /\ (forall m, m ∈ found <-> m = doc \/ (m ∈ messages db /\ between s r m)).
Proof.
  intros Hblank Hs Hr Hsa Hra doc db'.
  assert (db' = {| users := users db; messages := messages db ++ [doc] |})
    as Hdb'.
  { unfold db'. rewrite (sendMessage_run now newId _ _ text s r db Hs Hr Hblank).
    destruct (lookup_hit _ _ Hsa) as (su & -> & Hsu).
    destruct (lookup_hit _ _ Hra) as (ru & -> & Hru).
    simpl. rewrite Hsu, Hru. reflexivity. }
  set (found := sortByCreatedAtDesc
                  (List.filter (fun m => bool_decide (between s r m))
                     (messages db'))).
  assert (forall m, m ∈ found <-> m = doc \/ (m ∈ messages db /\ between s r m))
    as Hmem.
  { intros m. unfold found, sortByCreatedAtDesc.
    rewrite merge_sort_Permutation, list_elem_of_In, filter_In,
      bool_decide_eq_true, <- list_elem_of_In, Hdb'. simpl.
    rewrite elem_of_app, list_elem_of_singleton.
    split.
    - intros [[Hin| ->] Hbt]; auto.
    - intros [->|[Hin Hbt]]; [|auto].
      split; [auto|]. left. split; reflexivity. }
  exists found. split; [|split; [|split]].
  - rewrite getMessagesBetweenUsers_cases, Hs, Hr.
    rewrite Hdb' at 1. reflexivity.
  - rewrite getMessagesBetweenUsers_cases, Hs, Hr.
    rewrite (filter_ext (fun m => bool_decide (between r s m))
               (fun m => bool_decide (between s r m)));
      [rewrite Hdb' at 1; reflexivity|].
    intros m. apply bool_decide_ext, between_sym.
  - apply Hmem. left. reflexivity.
  - exact Hmem.
Qed.

Lemma X8_witness :
  exists found : list Message,
    MessageService.getMessagesBetweenUsers (H := HexOdm.odm)
      (JString Fixture.idAna) (JString Fixture.idBen)
      (snd (MessageService.sendMessage (H := HexOdm.odm) 5000%Z Fixture.idMsg3
              (JString Fixture.idAna) (JString Fixture.idBen) (JString "again")
              Fixture.twoMessages))
    = (Resolved (map (populate (users Fixture.twoMessages)) found),
       snd (MessageService.sendMessage (H := HexOdm.odm) 5000%Z Fixture.idMsg3
              (JString Fixture.idAna) (JString Fixture.idBen) (JString "again")
              Fixture.twoMessages))
    /\ newMessage 5000%Z Fixture.idMsg3 "again" Fixture.idAna Fixture.idBen
       ∈ found.
Proof.
  destruct (X8_sent_message_is_in_the_history (H := HexOdm.odm) 5000%Z
              Fixture.idMsg3 (JString Fixture.idAna) (JString Fixture.idBen)
              "again" Fixture.idAna Fixture.idBen Fixture.twoMessages)
    as (found & Hget & _ & Hin & _).
  - reflexivity.
  - reflexivity.
  - reflexivity.
  - exists Fixture.ana. repeat split. apply list_elem_of_here.
  - exists Fixture.ben. repeat split. apply list_elem_of_further, list_elem_of_here.
  - exists found. split; [exact Hget|exact Hin].
Defined.

(** X9. Sending and then deleting as the sender gives the store back.
    When the new document's identifier is not that of a stored message,
    and its text form is well formed and casts back to it, a
    [deleteMessage] by the sender right after a successful [sendMessage]
    resolves to the populated message that was sent and leaves the store
    exactly as it was before the send. *)
Theorem X9_send_then_delete_restores_the_store `{Odm} (now : Date)
    (newId : ObjectId) (senderId receiverId messageId : JsValue) (text : string)
    (s r : ObjectId) (db : Db) :
  blank (JString text) = false ->
  castObjectId senderId = Some s ->
  castObjectId receiverId = Some r ->
  availableUser db s ->
  availableUser db r ->
  newId ∉ map _id (messages db) ->
  isValid messageId = true ->
  isValid senderId = true ->
  castObjectId messageId = Some newId ->
  MessageService.deleteMessage messageId senderId
    (snd (MessageService.sendMessage now newId senderId receiverId
            (JString text) db))
  = (Resolved (populate (users db) (newMessage now newId text s r)), db).
Proof.
  intros Hblank Hs Hr Hsa Hra Hfresh Hvm Hvs Hm.
  rewrite (sendMessage_run now newId _ _ text s r db Hs Hr Hblank).
  destruct (lookup_hit _ _ Hsa) as (su & -> & Hsu).
  destruct (lookup_hit _ _ Hra) as (ru & -> & Hru).
  simpl. rewrite Hsu, Hru.
  rewrite (deleteMessage_run _ _ newId s _ Hvm Hvs Hm Hs). simpl.
  rewrite (removeFirst_last _ (messages db) (newMessage now newId text s r)).
  - simpl. rewrite db_eta. reflexivity.
  - intros x Hx.
    destruct (matchesCond (ownerCond newId s) x) eqn:E; [|reflexivity].
    exfalso. apply matchesCond_owner in E as [Hid _]. apply Hfresh.
    rewrite <- Hid. apply list_elem_of_In, in_map, list_elem_of_In, Hx.
  - apply matchesCond_owner. split; reflexivity.
Qed.

Lemma X9_witness :
  MessageService.deleteMessage (H := HexOdm.odm)
    (JString Fixture.idMsg3) (JString Fixture.idAna)
    (snd (MessageService.sendMessage (H := HexOdm.odm) 5000%Z Fixture.idMsg3
            (JString Fixture.idAna) (JString Fixture.idBen) (JString "again")
            Fixture.twoMessages))
  = (Resolved (populate (users Fixture.twoMessages)
                 (newMessage 5000%Z Fixture.idMsg3 "again" Fixture.idAna
                    Fixture.idBen)),
     Fixture.twoMessages).
Proof.
  apply (X9_send_then_delete_restores_the_store (H := HexOdm.odm) 5000%Z
           Fixture.idMsg3 (JString Fixture.idAna) (JString Fixture.idBen)
           (JString Fixture.idMsg3) "again" Fixture.idAna Fixture.idBen
           Fixture.twoMessages); try reflexivity.
  - exists Fixture.ana. repeat split. apply list_elem_of_here.
  - exists Fixture.ben. repeat split. apply list_elem_of_further, list_elem_of_here.
  - simpl. intros Hin.
    apply elem_of_cons in Hin as [Hin|Hin]; [discriminate Hin|].
    apply list_elem_of_singleton in Hin. discriminate Hin.
Defined.

(** X10. Repeating an update is harmless.  The same [updateMessage] made a
    second time, at whatever later time, on the store the first call left,
    gives the same outcome and leaves that store as it is. *)
Theorem X10_update_twice_is_update_once `{Odm} (now later : Date)
    (messageId newContent senderId : JsValue) (db : Db) :
  MessageService.updateMessage later messageId newContent senderId
    (snd (MessageService.updateMessage now messageId newContent senderId db))
  = MessageService.updateMessage now messageId newContent senderId db.
Proof.
  rewrite (updateMessage_cases now).
  repeat case_if; try (rewrite updateMessage_cases;
                      repeat match goal with
                             | E : _ = _ |- _ => rewrite E
                             end; reflexivity).
  destruct (castFilter _) as [cond|e'] eqn:Ecast.
  - assert (updateFirst (matchesCond cond)
              (withContent (MessageService.trimmed newContent))
              (snd (updateFirst (matchesCond cond)
                      (withContent (MessageService.trimmed newContent))
                      (messages db)))
            = updateFirst (matchesCond cond)
                (withContent (MessageService.trimmed newContent))
                (messages db)) as Hagain
      by (apply updateFirst_again; intros m; reflexivity).
    simpl.
    destruct (fst (updateFirst _ _ (messages db))) eqn:E;
      rewrite updateMessage_cases;
      repeat match goal with
             | E : negb _ = _ |- _ => rewrite E
             | E : blank _ = _ |- _ => rewrite E
             end;
      rewrite Ecast; simpl; rewrite Hagain, E; reflexivity.
  - rewrite updateMessage_cases.
    repeat match goal with
           | E : negb _ = _ |- _ => rewrite E
           | E : blank _ = _ |- _ => rewrite E
           end.
    rewrite Ecast. reflexivity.
Qed.

(** X11. Update and delete do not look at the users collection to decide.
    With the same messages stored, whether a call succeeds and which
    messages are stored after it are the same whatever users are stored:
    a sender who is unavailable, or is no longer stored, can still edit
    and delete their messages. *)
Theorem X11_ownership_ignores_the_users `{Odm} (now : Date)
    (messageId newContent senderId : JsValue) (us1 us2 : list User.t)
    (ms : list Message) :
  let db1 := {| users := us1; messages := ms |} in
  let db2 := {| users := us2; messages := ms |} in
  isResolved (fst (MessageService.updateMessage now messageId newContent
                     senderId db1))
    = isResolved (fst (MessageService.updateMessage now messageId newContent
                         senderId db2))
  /\ messages (snd (MessageService.updateMessage now messageId newContent
                      senderId db1))
    = messages (snd (MessageService.updateMessage now messageId newContent
                       senderId db2))
  /\ isResolved (fst (MessageService.deleteMessage messageId senderId db1))
    = isResolved (fst (MessageService.deleteMessage messageId senderId db2))
  /\ messages (snd (MessageService.deleteMessage messageId senderId db1))
    = messages (snd (MessageService.deleteMessage messageId senderId db2)).
Proof.
  intros db1 db2. subst db1 db2.
  rewrite !updateMessage_cases, !deleteMessage_cases. simpl.
  repeat split; repeat case_if; try reflexivity;
    destruct (castFilter _) as [cond|e']; try reflexivity; simpl;
    match goal with
    | |- context [fst ?r] => destruct (fst r); reflexivity
    end.
Qed.

(** An unavailable user deletes a message she sent earlier. *)
Example unavailable_sender_can_delete :
  isResolved
    (fst (MessageService.deleteMessage (H := HexOdm.odm)
            (JString Fixture.idMsg1) (JString Fixture.idEva)
            {| users := [Fixture.ana; Fixture.ben; Fixture.eva];
               messages := [ {| _id := Fixture.idMsg1; content := "old";
                                sender := Fixture.idEva;
                                receiver := Fixture.idAna; read := false;
                                createdAt := 10%Z |} ] |}))
  = true.
Proof. vm_compute. reflexivity. Qed.

(** ** The handlers: what is answered, and when the store is written *)

(** X12. The POST handler on content that is not blank and two identifiers
    the store can look up: it answers 201 with the stored message when
    both users are stored available, and 404 with the not-found text,
    writing nothing, when one of them is not; it answers nothing else. *)
Theorem X12_post_answers_201_or_404 `{Odm} (now : Date) (newId : ObjectId)
    (senderId receiverId : JsValue) (text : string) (s r : ObjectId) (db : Db) :
  blank (JString text) = false ->
  castObjectId senderId = Some s ->
  castObjectId receiverId = Some r ->
  let res := MessageController.sendMessage now newId senderId receiverId
               (JString text) db in
  (availableUser db s /\ availableUser db r ->
   res = ({| MessageController.status := 201%Z;
             MessageController.json :=
               MessageController.JsonMessage (newMessage now newId text s r) |},
          {| users := users db;
             messages := messages db ++ [newMessage now newId text s r] |}))
  /\ (~ availableUser db s ->
      res = ({| MessageController.status := 404%Z;
                MessageController.json :=
                  MessageController.JsonError msgSenderNotFound |}, db))
  /\ (availableUser db s -> ~ availableUser db r ->
      res = ({| MessageController.status := 404%Z;
                MessageController.json :=
                  MessageController.JsonError msgReceiverNotFound |}, db))
  /\ (MessageController.status (fst res) = 201%Z
      \/ MessageController.status (fst res) = 404%Z).
Proof.
  intros Hblank Hs Hr res. subst res.
  unfold MessageController.sendMessage.
  rewrite (sendMessage_run now newId _ _ text s r db Hs Hr Hblank).
  destruct (find (userMatches s true) (users db)) as [su|] eqn:Esu.
  - pose proof (lookup_Some_available _ _ _ Esu) as Hsa.
    destruct (lookup_hit _ _ Hsa) as (su' & Hsu' & Hid).
    rewrite Esu in Hsu'. inversion Hsu'; subst su'.
    destruct (find (userMatches r true) (users db)) as [ru|] eqn:Eru.
    + pose proof (lookup_Some_available _ _ _ Eru) as Hra.
      destruct (lookup_hit _ _ Hra) as (ru' & Hru' & Hidr).
      rewrite Eru in Hru'. inversion Hru'; subst ru'.
      simpl. rewrite Hid, Hidr.
      repeat split; try tauto; auto.
    + pose proof (lookup_None_unavailable _ _ Eru) as Hra.
      simpl. repeat split; try tauto; auto.
  - pose proof (lookup_None_unavailable _ _ Esu) as Hsa.
    simpl. repeat split; try tauto; auto.
Qed.

Lemma X12_witness :
  MessageController.sendMessage (H := HexOdm.odm) 5000%Z Fixture.idMsg3
    (JString Fixture.idAna) (JString Fixture.idEva) (JString "hi")
    Fixture.twoMessages
  = ({| MessageController.status := 404%Z;
        MessageController.json :=
          MessageController.JsonError msgReceiverNotFound |},
     Fixture.twoMessages).
Proof.
  destruct (X12_post_answers_201_or_404 (H := HexOdm.odm) 5000%Z Fixture.idMsg3
              (JString Fixture.idAna) (JString Fixture.idEva) "hi"
              Fixture.idAna Fixture.idEva Fixture.twoMessages
              eq_refl eq_refl eq_refl) as (_ & _ & Hreceiver & _).
  apply Hreceiver.
  - exists Fixture.ana. repeat split. apply list_elem_of_here.
  - intros (u & Hin & Hid & Hav).
    apply elem_of_cons in Hin as [->|Hin]; [discriminate Hid|].
    apply elem_of_cons in Hin as [->|Hin]; [discriminate Hid|].
    apply list_elem_of_singleton in Hin as ->. discriminate Hav.
Defined.

(** X13. The POST handler answers content that is missing, not a string
    or blank with 400 and the text of the validation error, whatever the
    two identifiers are, and writes nothing. *)
Theorem X13_post_blank_content_is_400 `{Odm} (now : Date) (newId : ObjectId)
    (senderId receiverId newContent : JsValue) (db : Db) :
  blank newContent = true ->
  MessageController.sendMessage now newId senderId receiverId newContent db
  = ({| MessageController.status := 400%Z;
        MessageController.json := MessageController.JsonError msgContentRequired |},
     db).
Proof.
  intros Hblank. unfold MessageController.sendMessage.
  rewrite sendMessage_cases, Hblank. reflexivity.
Qed.

Lemma X13_witness :
  MessageController.sendMessage (H := HexOdm.odm) 5000%Z Fixture.idMsg3
    (JString Fixture.idAna) (JString Fixture.idBen) JUndefined
    Fixture.twoMessages
  = ({| MessageController.status := 400%Z;
        MessageController.json := MessageController.JsonError msgContentRequired |},
     Fixture.twoMessages).
Proof.
  apply (X13_post_blank_content_is_400 (H := HexOdm.odm)). reflexivity.
Defined.

(** X14. With a [senderId] that is truthy and a [messageId] that passes
    [isValid], the PUT handler answers content that is truthy but blank
    (made of white space only) with 500, not 400.  Such content passes the
    handler's own test for required fields; the service then throws the
    validation error, whose text matches none of the three words the
    [catch] block looks for.  Nothing is written. *)
Theorem X14_put_white_space_content_is_500 `{Odm} (now : Date)
    (messageId newContent senderId : JsValue) (db : Db) :
  truthy newContent = true ->
  blank newContent = true ->
  truthy senderId = true ->
  isValid messageId = true ->
  MessageController.updateMessage now messageId newContent senderId db
  = ({| MessageController.status := 500%Z;
        MessageController.json := MessageController.JsonError msgContentRequired |},
     db).
Proof.
  intros Htc Hblank Hts Hvm. unfold MessageController.updateMessage.
  rewrite Htc, Hts. simpl.
  rewrite updateMessage_cases, Hvm, Hblank. reflexivity.
Qed.

Lemma X14_witness :
  MessageController.updateMessage (H := HexOdm.odm) 5000%Z
    (JString Fixture.idMsg1) (JString "   ") (JString Fixture.idAna)
    Fixture.twoMessages
  = ({| MessageController.status := 500%Z;
        MessageController.json := MessageController.JsonError msgContentRequired |},
     Fixture.twoMessages).
Proof.
  apply (X14_put_white_space_content_is_500 (H := HexOdm.odm)); reflexivity.
Defined.

(** X15. Required fields come first.  The PUT handler answers 400 with its
    own text as soon as [content] or [senderId] is falsy, and the DELETE
    handler as soon as [senderId] is: the service is not called, so no
    identifier is validated and nothing is written, whatever [messageId]
    is. *)
Theorem X15_missing_fields_are_400 `{Odm} (now : Date)
    (messageId newContent senderId : JsValue) (db : Db) :
  truthy senderId = false ->
  MessageController.updateMessage now messageId newContent senderId db
    = ({| MessageController.status := 400%Z;
          MessageController.json :=
            MessageController.JsonError "content y senderId son requeridos" |},
       db)
  /\ MessageController.deleteMessage messageId senderId db
    = ({| MessageController.status := 400%Z;
          MessageController.json :=
            MessageController.JsonError "senderId es requerido" |},
       db)
  /\ (forall otherSender,
        truthy newContent = false ->
        MessageController.updateMessage now messageId newContent otherSender db
        = ({| MessageController.status := 400%Z;
              MessageController.json :=
                MessageController.JsonError "content y senderId son requeridos" |},
           db)).
Proof.
  intros Hts. unfold MessageController.updateMessage,
    MessageController.deleteMessage.
  rewrite Hts, orb_true_r. simpl.
  repeat split. intros otherSender ->. reflexivity.
Qed.

Lemma X15_witness :
  MessageController.deleteMessage (H := HexOdm.odm)
    (JString "not an identifier") JUndefined Fixture.twoMessages
  = ({| MessageController.status := 400%Z;
        MessageController.json :=
          MessageController.JsonError "senderId es requerido" |},
     Fixture.twoMessages).
Proof.
  destruct (X15_missing_fields_are_400 (H := HexOdm.odm) 0%Z
              (JString "not an identifier") JUndefined JUndefined
              Fixture.twoMessages eq_refl) as (_ & Hdelete & _).
  exact Hdelete.
Defined.

(** X16. Past the handlers' test for required fields, an identifier that
    fails [isValid] is answered 400 with the text of the service's error,
    and nothing is written.  With a truthy [senderId], DELETE answers so
    when [messageId] is not valid (its text) and when it is valid and
    [senderId] is not (the sender's text).  PUT answers the same when
    moreover [content] is truthy and, for the case where only [senderId]
    is not valid, not blank: the content is tested between the two. *)
Theorem X16_invalid_identifier_is_400 `{Odm} (now : Date)
    (messageId newContent senderId : JsValue) (db : Db) :
  truthy senderId = true ->
  isValid messageId = false \/ isValid senderId = false ->
  let text := if isValid messageId then msgInvalidSenderId
              else msgInvalidMessageId in
  MessageController.deleteMessage messageId senderId db
    = ({| MessageController.status := 400%Z;
          MessageController.json := MessageController.JsonError text |}, db)
  /\ (truthy newContent = true ->
      isValid messageId = false \/ blank newContent = false ->
      MessageController.updateMessage now messageId newContent senderId db
      = ({| MessageController.status := 400%Z;
            MessageController.json := MessageController.JsonError text |}, db)).
Proof.
  intros Hts Hbad text. subst text.
  unfold MessageController.updateMessage, MessageController.deleteMessage.
  rewrite Hts. simpl.
  rewrite updateMessage_cases, deleteMessage_cases.
  destruct (isValid messageId); simpl.
  - destruct Hbad as [Hbad|Hbad]; [discriminate|].
    rewrite Hbad. simpl. split; [reflexivity|].
    intros -> [Hm|Hblank]; [discriminate|]. simpl. rewrite Hblank. reflexivity.
  - split; [reflexivity|]. intros -> _. reflexivity.
Qed.

(** A sender that is no identifier: DELETE, and PUT with some content. *)
Lemma X16_witness :
  MessageController.deleteMessage (H := HexOdm.odm)
    (JString Fixture.idMsg1) (JString "ana") Fixture.twoMessages
  = ({| MessageController.status := 400%Z;
        MessageController.json := MessageController.JsonError msgInvalidSenderId |},
     Fixture.twoMessages)
  /\ MessageController.updateMessage (H := HexOdm.odm) 0%Z
       (JString Fixture.idMsg1) (JString "x") (JString "ana")
       Fixture.twoMessages
     = ({| MessageController.status := 400%Z;
           MessageController.json :=
             MessageController.JsonError msgInvalidSenderId |},
        Fixture.twoMessages).
Proof.
  destruct (X16_invalid_identifier_is_400 (H := HexOdm.odm) 0%Z
              (JString Fixture.idMsg1) (JString "x") (JString "ana")
              Fixture.twoMessages eq_refl (or_intror eq_refl))
    as (Hdelete & Hput).
  split; [exact Hdelete|].
  apply Hput; [reflexivity|right; reflexivity].
Defined.

(** X17. The GET handler on two identifiers the store can look up: it
    answers 404 with a notice exactly when no stored message is between
    the two users, and 200 with the list otherwise; it never writes. *)
Theorem X17_get_answers_404_on_empty_history `{Odm} (userA userB : JsValue)
    (a b : ObjectId) (db : Db) :
  castObjectId userA = Some a ->
  castObjectId userB = Some b ->
  let res := MessageController.getMessagesBetweenUsers userA userB db in
  snd res = db
  /\ ((forall m, m ∈ messages db -> ~ between a b m) ->
      fst res
      = {| MessageController.status := 404%Z;
           MessageController.json :=
             MessageController.JsonNotice
               "No se encontraron mensajes entre estos usuarios" |})
  /\ ((exists m, m ∈ messages db /\ between a b m) ->
      exists ms, ms <> []
                 /\ fst res = {| MessageController.status := 200%Z;
                                 MessageController.json :=
                                   MessageController.JsonList ms |}).
Proof.
  intros Ha Hb res. subst res.
  unfold MessageController.getMessagesBetweenUsers.
  rewrite getMessagesBetweenUsers_cases, Ha, Hb.
  set (found := sortByCreatedAtDesc
                  (List.filter (fun m => bool_decide (between a b m))
                     (messages db))).
  assert (forall m, m ∈ found <-> m ∈ messages db /\ between a b m) as Hmem.
  { intros m. unfold found, sortByCreatedAtDesc.
    rewrite merge_sort_Permutation, !list_elem_of_In, filter_In,
      bool_decide_eq_true. reflexivity. }
  destruct found as [|m0 found'] eqn:Efound; simpl.
  - split; [reflexivity|]. split; [reflexivity|].
    intros (m & Hin & Hbt). exfalso.
    assert (m ∈ @nil Message) as Hnil by (apply Hmem; auto).
    inversion Hnil.
  - split; [reflexivity|]. split.
    + intros Hnone. exfalso.
      destruct (proj1 (Hmem m0) (list_elem_of_here _ _)) as [Hin Hbt].
      exact (Hnone m0 Hin Hbt).
    + intros _. eexists. split; [|reflexivity]. discriminate.
Qed.

Lemma X17_witness :
  fst (MessageController.getMessagesBetweenUsers (H := HexOdm.odm)
         (JString Fixture.idAna) (JString Fixture.idEva) Fixture.twoMessages)
  = {| MessageController.status := 404%Z;
       MessageController.json :=
         MessageController.JsonNotice
           "No se encontraron mensajes entre estos usuarios" |}.
Proof.
  destruct (X17_get_answers_404_on_empty_history (H := HexOdm.odm)
              (JString Fixture.idAna) (JString Fixture.idEva)
              Fixture.idAna Fixture.idEva Fixture.twoMessages
              eq_refl eq_refl) as (_ & Hempty & _).
  apply Hempty. intros m Hm Hbt.
  apply elem_of_cons in Hm as [->|Hm].
  - destruct Hbt as [[_ Hr]|[Hs _]]; discriminate.
  - apply list_elem_of_singleton in Hm as ->.
    destruct Hbt as [[Hs _]|[Hs _]]; discriminate.
Defined.

Section HandlerWrites.
Context `{Odm}.

Lemma mutationFailure_status (e : Thrown) :
  MessageController.status (MessageController.mutationFailure e) <> 200%Z.
Proof.
  unfold MessageController.mutationFailure.
  repeat case_if; simpl; discriminate.
Qed.
End HandlerWrites.

(** X18. A handler writes to the store only when it answers with its
    success status: POST with anything but 201, and PUT and DELETE with
    anything but 200, leave the store as it was; GET never writes. *)
Theorem X18_store_is_written_only_on_success `{Odm} (now : Date)
    (newId : ObjectId) (id1 id2 newContent : JsValue) :
  writesOnlyOn 201 (MessageController.sendMessage now newId id1 id2 newContent)
  /\ writesOnlyOn 200 (MessageController.updateMessage now id1 newContent id2)
  /\ writesOnlyOn 200 (MessageController.deleteMessage id1 id2)
  /\ (forall db,
        snd (MessageController.getMessagesBetweenUsers id1 id2 db) = db).
Proof.
  unfold writesOnlyOn. split; [|split; [|split]]; intros db.
  - unfold MessageController.sendMessage.
    pose proof (sendMessage_fails_clean now newId id1 id2 newContent db) as Hclean.
    destruct (MessageService.sendMessage now newId id1 id2 newContent db)
      as [[m|e] db']; simpl in *.
    + intros Hne. destruct (Hne eq_refl).
    + intros _. case_if; simpl; apply (Hclean e eq_refl).
  - unfold MessageController.updateMessage.
    case_if; [reflexivity|].
    pose proof (updateMessage_fails_clean now id1 newContent id2 db) as Hclean.
    destruct (MessageService.updateMessage now id1 newContent id2 db)
      as [[m|e] db']; simpl in *.
    + intros Hne. destruct (Hne eq_refl).
    + intros _. apply (Hclean e eq_refl).
  - unfold MessageController.deleteMessage.
    case_if; [reflexivity|].
    pose proof (deleteMessage_fails_clean id1 id2 db) as Hclean.
    destruct (MessageService.deleteMessage id1 id2 db)
      as [[m|e] db']; simpl in *.
    + intros Hne. destruct (Hne eq_refl).
    + intros _. apply (Hclean e eq_refl).
  - unfold MessageController.getMessagesBetweenUsers.
    pose proof (getMessagesBetweenUsers_reads_only id1 id2 db) as Hclean.
    destruct (MessageService.getMessagesBetweenUsers id1 id2 db)
      as [[ms|e] db']; simpl in *; repeat case_if; simpl; exact Hclean.
Qed.

(** A PUT by someone who is not the sender is answered 403; nothing moved. *)
Lemma X18_witness :
  snd (MessageController.updateMessage (H := HexOdm.odm) 5000%Z
         (JString Fixture.idMsg1) (JString "edited") (JString Fixture.idBen)
         Fixture.twoMessages)
  = Fixture.twoMessages.
Proof.
  destruct (X18_store_is_written_only_on_success (H := HexOdm.odm) 5000%Z
              Fixture.idMsg3 (JString Fixture.idMsg1) (JString Fixture.idBen)
              (JString "edited")) as (_ & Hput & _).
  apply Hput. vm_compute. discriminate.
Defined.

(** ** The router in front of the handlers *)

Section RouterFacts.
Context `{Odm}.

Lemma not_empty_eqb (seg : string) : seg <> "" -> String.eqb seg "" = false.
Proof. apply String.eqb_neq. Qed.

Lemma bindParams_two n1 n2 seg1 seg2 :
  seg1 <> "" -> seg2 <> "" ->
  MessageRoutes.bindParams [n1; n2] [seg1; seg2]
  = Some (<[n1 := seg1]> (<[n2 := seg2]> ∅)).
Proof.
  intros H1 H2. unfold MessageRoutes.bindParams. simpl.
  rewrite (not_empty_eqb _ H1), (not_empty_eqb _ H2). reflexivity.
Qed.

Lemma bindParams_one n1 seg1 :
  seg1 <> "" ->
  MessageRoutes.bindParams [n1] [seg1] = Some (<[n1 := seg1]> ∅).
Proof.
  intros H1. unfold MessageRoutes.bindParams. simpl.
  rewrite (not_empty_eqb _ H1). reflexivity.
Qed.
End RouterFacts.

(** X19. Through the router, the receiver in the URL never reaches the
    service.  The POST route binds its second segment to [recieverId]
    while the handler reads [receiverId]: for every path of two segments
    and every body, the request is answered by the handler called with
    the first segment as sender, [undefined] as receiver, and the body's
    [content]. *)
Theorem X19_post_route_loses_the_receiver `{Odm} (now : Date) (newId : ObjectId)
    (seg1 seg2 : string) (fields : gmap string JsValue) (db : Db) :
  seg1 <> "" ->
  seg2 <> "" ->
  MessageRoutes.handle now newId
    {| MessageRoutes.method := MessageRoutes.POST;
       MessageRoutes.segments := [seg1; seg2];
       MessageRoutes.body := fields |} db
  = Some (MessageController.sendMessage now newId (JString seg1) JUndefined
            (MessageRoutes.field fields "content") db).
Proof.
  intros H1 H2. unfold MessageRoutes.handle, MessageRoutes.routes. simpl.
  rewrite (bindParams_two _ _ _ _ H1 H2). simpl.
  unfold MessageRoutes.param.
  rewrite lookup_insert_eq.
  rewrite lookup_insert_ne by discriminate.
  rewrite lookup_insert_ne by discriminate.
  rewrite lookup_empty. reflexivity.
Qed.

Lemma X19_witness :
  MessageRoutes.handle (H := HexOdm.odm) 5000%Z Fixture.idMsg3
    {| MessageRoutes.method := MessageRoutes.POST;
       MessageRoutes.segments := [Fixture.idAna; Fixture.idBen];
       MessageRoutes.body := {[ "content" := JString "hi" ]} |}
    Fixture.twoMessages
  = Some (MessageController.sendMessage (H := HexOdm.odm) 5000%Z Fixture.idMsg3
            (JString Fixture.idAna) JUndefined
            (MessageRoutes.field {[ "content" := JString "hi" ]} "content")
            Fixture.twoMessages).
Proof.
  apply (X19_post_route_loses_the_receiver (H := HexOdm.odm)); discriminate.
Defined.

(** X20. Through the router, the two users in the URL never reach the
    service.  The GET route binds [senderId] and [recieverId] while the
    handler reads [userId1] and [userId2]: for every path of two segments
    the request is answered by the handler called with [undefined] twice,
    so that the answer is the same for every pair. *)
Theorem X20_get_route_loses_both_users `{Odm} (now : Date) (newId : ObjectId)
    (seg1 seg2 : string) (fields : gmap string JsValue) (db : Db) :
  seg1 <> "" ->
  seg2 <> "" ->
  MessageRoutes.handle now newId
    {| MessageRoutes.method := MessageRoutes.GET;
       MessageRoutes.segments := [seg1; seg2];
       MessageRoutes.body := fields |} db
  = Some (MessageController.getMessagesBetweenUsers JUndefined JUndefined db).
Proof.
  intros H1 H2. unfold MessageRoutes.handle, MessageRoutes.routes. simpl.
  rewrite (bindParams_two _ _ _ _ H1 H2). simpl.
  unfold MessageRoutes.param.
  rewrite !lookup_insert_ne by discriminate.
  rewrite lookup_empty. reflexivity.
Qed.

Lemma X20_witness :
  MessageRoutes.handle (H := HexOdm.odm) 5000%Z Fixture.idMsg3
    {| MessageRoutes.method := MessageRoutes.GET;
       MessageRoutes.segments := [Fixture.idAna; Fixture.idBen];
       MessageRoutes.body := ∅ |}
    Fixture.twoMessages
  = Some (MessageController.getMessagesBetweenUsers (H := HexOdm.odm)
            JUndefined JUndefined Fixture.twoMessages).
Proof.
  apply (X20_get_route_loses_both_users (H := HexOdm.odm)); discriminate.
Defined.

(** X21. PUT and DELETE on a path of one segment reach [updateMessage] and
    [deleteMessage] with that segment as [messageId] and the body's
    [content] and [senderId]; PATCH reaches no handler, whatever the path
    and the body. *)
Theorem X21_put_and_delete_are_routed_and_patch_is_not `{Odm} (now : Date)
    (newId : ObjectId) (seg : string) (segs : list string)
    (fields : gmap string JsValue) (db : Db) :
  seg <> "" ->
  MessageRoutes.handle now newId
    {| MessageRoutes.method := MessageRoutes.PUT;
       MessageRoutes.segments := [seg];
       MessageRoutes.body := fields |} db
    = Some (MessageController.updateMessage now (JString seg)
              (MessageRoutes.field fields "content")
              (MessageRoutes.field fields "senderId") db)
  /\ MessageRoutes.handle now newId
    {| MessageRoutes.method := MessageRoutes.DELETE;
       MessageRoutes.segments := [seg];
       MessageRoutes.body := fields |} db
    = Some (MessageController.deleteMessage (JString seg)
              (MessageRoutes.field fields "senderId") db)
  /\ MessageRoutes.handle now newId
    {| MessageRoutes.method := MessageRoutes.PATCH;
       MessageRoutes.segments := segs;
       MessageRoutes.body := fields |} db
    = None.
Proof.
  intros H1. unfold MessageRoutes.handle, MessageRoutes.routes. simpl.
  rewrite (bindParams_one _ _ H1). simpl.
  unfold MessageRoutes.param. rewrite lookup_insert_eq.
  repeat split; reflexivity.
Qed.

Lemma X21_witness :
  MessageRoutes.handle (H := HexOdm.odm) 5000%Z Fixture.idMsg3
    {| MessageRoutes.method := MessageRoutes.PATCH;
       MessageRoutes.segments := [Fixture.idMsg1];
       MessageRoutes.body :=
         {[ "content" := JString "edited"; "senderId" := JString Fixture.idAna ]} |}
    Fixture.twoMessages
  = None.
Proof.
  destruct (X21_put_and_delete_are_routed_and_patch_is_not (H := HexOdm.odm)
              5000%Z Fixture.idMsg3 Fixture.idMsg1 [Fixture.idMsg1]
              {[ "content" := JString "edited";
                 "senderId" := JString Fixture.idAna ]}
              Fixture.twoMessages) as (_ & _ & Hpatch).
  - discriminate.
  - exact Hpatch.
Defined.
